(** * fastify-session: the session plugin of [lib/fastifySession.js]

    A shallow embedding of the plugin's setup function and of its two
    request hooks, together with the properties of the session life cycle
    that follow from the code.

    The hooks are written in continuation-passing style in the source
    (every store operation takes a callback); they are embedded as finite
    interaction programs whose nodes are the calls made to the store and
    to the reply, and whose leaves are the calls to [done]. *)

From Stdlib Require Import ZArith Ascii String List Bool Lia.
From stdpp Require Import base option gmap strings.
Import ListNotations.

#[local] Set Warnings "-register-all".
#[local] Open Scope string_scope.
#[local] Open Scope Z_scope.

(** ** JavaScript values

    Session records, errors and a few options are only ever inspected
    dynamically by the plugin (truthiness, [=== true], property reads), so
    they are kept as untyped values.  Numbers are integers: the only
    numbers the plugin computes with are millisecond timestamps.  [VObj]
    stands for a plain object, given by its own enumerable properties;
    [VDate] for a [Date] with the given time value. *)

Inductive value : Type :=
| VUndefined
| VNull
| VBool (b : bool)
| VNum (n : Z)
| VStr (s : string)
| VDate (ms : Z)
| VObj (props : gmap string value).

(** [!!v] *)
Definition truthy (v : value) : bool :=
  match v with
  | VUndefined | VNull => false
  | VBool b => b
  | VNum n => negb (n =? 0)
  | VStr s => negb (String.eqb s "")
  | VDate _ | VObj _ => true
  end.

(** [v.k], for the property names the plugin reads ([code], [expires],
    [sessionId], [encryptedSessionId], [cookie], [encrypted]): own
    properties of a plain object, [undefined] on anything else.  Every
    read in the plugin is guarded by a truthiness test of [v], so the
    [TypeError] of a read on [undefined] or [null] never arises. *)
Definition prop (v : value) (k : string) : value :=
  match v with
  | VObj props => default VUndefined (props !! k)
  | _ => VUndefined
  end.

(** [v === true] *)
Definition is_true (v : value) : bool :=
  match v with
  | VBool true => true
  | _ => false
  end.

(** [v === s] for a string literal [s] *)
Definition is_string (v : value) (s : string) : bool :=
  match v with
  | VStr s' => String.eqb s' s
  | _ => false
  end.

(** [v === undefined] *)
Definition is_undefined (v : value) : bool :=
  match v with
  | VUndefined => true
  | _ => false
  end.

(** [Object.keys(v).length] *)
Definition keys_length (v : value) : nat :=
  match v with
  | VObj props => size props
  | VStr s => String.length s
  | _ => 0%nat
  end.

(** [s.indexOf(p)] *)
Definition indexOf (s p : string) : Z :=
  match String.index 0 p s with
  | Some n => Z.of_nat n
  | None => -1
  end.

(** ** The data of the plugin *)

(** [options.cookie]: the attributes of the session cookie.  [path] and
    [secure] are the two the plugin itself looks at; the others
    ([maxAge], [domain], [httpOnly], ...) are only passed along. *)
Record CookieOpts : Type := {
  path : option string;
  secure : value;
  attributes : gmap string value;
}.

(** The object a cookie options record stands for. *)
Definition cookie_object (cookieOpts : CookieOpts) : value :=
  let with_secure := <["secure" := secure cookieOpts]> (attributes cookieOpts) in
  VObj match path cookieOpts with
       | Some p => <["path" := VStr p]> with_secure
       | None => with_secure
       end.

(** The store contract ([options.store]).  A store is called with a
    callback; the record gives what each call hands to its callback:
    [(err, session)] for [get], [err] for [set] and [destroy]. *)
Record Store : Type := {
  store_get : string -> value * value;
  store_set : value -> value -> value;
  store_destroy : string -> value;
}.

(** The options object given to the plugin; absent fields are [None]
    (or [VUndefined]). *)
Record Options : Type := {
  secret : option string;
  store : option Store;
  cookieName : option string;
  cookie : option CookieOpts;
  saveUninitialized : value;
}.

(** [request.req] *)
Record Req : Type := {
  url : string;
  connection : value;
}.

Module Request.

Record t : Type := {
  req : Req;
  cookies : gmap string string;
  headers : gmap string string;
  session : value;
}.

(** [request.session = s] *)
Definition set_session (request : t) (s : value) : t :=
  {| req := req request;
     cookies := cookies request;
     headers := headers request;
     session := s |}.

End Request.

(** What [generateSessionIds] of [./utils] returns. *)
Record SessionIds : Type := {
  sessionId : value;
  encryptedSessionId : value;
}.

(** The arguments of one [new Session(...)]; the last one is optional in
    the source. *)
Record SessionArgs : Type := {
  arg_sessionId : value;
  arg_encryptedSessionId : value;
  arg_cookieOpts : CookieOpts;
  arg_secret : option string;
  arg_prevSession : option value;
}.

(** What the plugin requires from outside this file: the modules
    [cookie-signature], [./utils], [./session] and [./store], and the
    conversion of a string to a number that [<=] performs ([None] is
    [NaN]). *)
Record Host : Type := {
  unsign : string -> string -> option string;
  generateSessionIds : option string -> SessionIds;
  Session : SessionArgs -> value;
  newStore : Store;
  StringToNumber : string -> option Z;
}.

(** [ToNumber(v)]; [None] is [NaN].  A plain object converts through
    its default string form, which is not numeric. *)
Definition ToNumber (host : Host) (v : value) : option Z :=
  match v with
  | VUndefined => None
  | VNull => Some 0
  | VBool b => Some (if b then 1 else 0)
  | VNum n => Some n
  | VStr s => StringToNumber host s
  | VDate ms => Some ms
  | VObj _ => None
  end.

(** [v <= n] for a number [n] *)
Definition le_number (host : Host) (v : value) (n : Z) : bool :=
  match ToNumber host v with
  | Some m => m <=? n
  | None => false
  end.

(** ** Hooks as interaction programs

    A hook ends by calling [done] (leaves [Done] and [Fail]) or by an
    uncaught [TypeError] ([Throw]); before that it calls out, and goes on
    in the callback or with the value returned. *)

Inductive prog : Type :=
| Done (request : Request.t)
| Fail (err : value)
| Throw
| GenerateSessionIds (secret : option string) (k : SessionIds -> prog)
| New_Session (args : SessionArgs) (k : value -> prog)
| StoreGet (s : Store) (id : string) (k : value -> value -> prog)
| StoreDestroy (s : Store) (id : string) (k : value -> prog)
| StoreSet (s : Store) (id : value) (session : value) (k : value -> prog)
| SetCookie (name : option string) (val : value) (opts : value) (k : prog).

(** The calls a run of a hook makes, in order. *)
Inductive event : Type :=
| EGenerate (secret : option string)
| ENew (args : SessionArgs)
| EGet (id : string)
| EDestroy (id : string)
| ESet (id : value) (session : value)
| ESetCookie (name : option string) (val : value) (opts : value).

Inductive outcome : Type :=
| Finished (request : Request.t)
| Failed (err : value)
| Threw.

Definition after (e : event) (r : list event * outcome) : list event * outcome :=
  (e :: fst r, snd r).

(** One run of a hook: every call is answered by the host or by the
    store, which invokes its callback once. *)
Fixpoint run (host : Host) (p : prog) : list event * outcome :=
  match p with
  | Done request => ([], Finished request)
  | Fail err => ([], Failed err)
  | Throw => ([], Threw)
  | GenerateSessionIds secret k =>
      after (EGenerate secret) (run host (k (generateSessionIds host secret)))
  | New_Session args k =>
      after (ENew args) (run host (k (Session host args)))
  | StoreGet s id k =>
      after (EGet id) (run host (k (fst (store_get s id)) (snd (store_get s id))))
  | StoreDestroy s id k =>
      after (EDestroy id) (run host (k (store_destroy s id)))
  | StoreSet s id session k =>
      after (ESet id session) (run host (k (store_set s id session)))
  | SetCookie name val opts k =>
      after (ESetCookie name val opts) (run host k)
  end.

Definition trace (host : Host) (p : prog) : list event := fst (run host p).
Definition result (host : Host) (p : prog) : outcome := snd (run host p).

(** ** [lib/fastifySession.js] *)

(** [options[key] === undefined ? def : options[key]], on the value
    found at the key *)
Definition option' (v def : value) : value :=
  if is_undefined v then def else v.

Inductive Error : Type :=
| mkError (message : string).

Definition checkOptions (options : Options) : option Error :=
  match secret options with
  | None => Some (mkError "the secret option is required!")
  | Some s =>
      if String.eqb s "" then Some (mkError "the secret option is required!")
      else if Z.of_nat (String.length s) <? 32
      then Some (mkError "the secret must have length 32 or greater")
      else None
  end.

(** [name || def] on an optional string *)
Definition or_string (name : option string) (def : string) : string :=
  match name with
  | Some s => if String.eqb s "" then def else s
  | None => def
  end.

Definition ensureDefaults (host : Host) (options : Options) : Options :=
  let store' := default (newStore host) (store options) in
  let cookieName' := or_string (cookieName options) "sessionId" in
  let cookie' :=
    default {| path := None; secure := VUndefined; attributes := ∅ |}
            (cookie options) in
  let cookie' :=
    {| path := path cookie';
       secure := option' (secure cookie') (VBool true);
       attributes := attributes cookie' |} in
  {| secret := secret options;
     store := Some store';
     cookieName := Some cookieName';
     cookie := Some cookie';
     saveUninitialized := option' (saveUninitialized options) (VBool true) |}.

Definition isSessionModified (session : value) : bool :=
  negb (keys_length session =? 4)%nat.

(** [None] is the [TypeError] of reading [secure] on an absent
    [cookieOpts]. *)
Definition shouldSaveSession (request : Request.t)
    (cookieOpts : option CookieOpts) (saveUninitialized : value)
  : option bool :=
  if negb (truthy saveUninitialized)
     && negb (isSessionModified (Request.session request))
  then Some false
  else
    match cookieOpts with
    | None => None
    | Some cookieOpts =>
        if negb (is_true (secure cookieOpts)) then Some true
        else
          let connection := connection (Request.req request) in
          if truthy connection && is_true (prop connection "encrypted")
          then Some true
          else
            let forwardedProto := Request.headers request !! "x-forwarded-proto" in
            Some (bool_decide (forwardedProto = Some "https"))
    end.

Definition newSession (secret : option string) (request : Request.t)
    (cookieOpts : CookieOpts) : prog :=
  GenerateSessionIds secret (fun sessionIds =>
  New_Session
    {| arg_sessionId := sessionId sessionIds;
       arg_encryptedSessionId := encryptedSessionId sessionIds;
       arg_cookieOpts := cookieOpts;
       arg_secret := secret;
       arg_prevSession := None |}
    (fun session => Done (Request.set_session request session))).

Definition getDestroyCallback (secret : option string) (request : Request.t)
    (cookieOpts : CookieOpts) : value -> prog :=
  fun err =>
    if truthy err then Fail err
    else newSession secret request cookieOpts.

(** [request.cookies[name]]; an absent name is the key ["undefined"]. *)
Definition cookie_named (request : Request.t) (name : option string)
  : option string :=
  Request.cookies request !! default "undefined" name.

(** The callback that [handleSession] gives to [store.get].  [sessionId]
    is the cookie value; [now] is what [Date.now()] returns when the
    callback runs. *)
Definition getCallback (host : Host) (store : Store) (secret : option string)
    (cookieOpts : CookieOpts) (sessionId : string) (now : Z)
    (request : Request.t) : value -> value -> prog :=
  fun err session =>
    if truthy err then
      if is_string (prop err "code") "ENOENT"
      then newSession secret request cookieOpts
      else Fail err
    else if negb (truthy session)
    then newSession secret request cookieOpts
    else if truthy session
            && truthy (prop session "expires")
            && le_number host (prop session "expires") now
    then StoreDestroy store sessionId
           (getDestroyCallback secret request cookieOpts)
    else
      New_Session
        {| arg_sessionId := prop session "sessionId";
           arg_encryptedSessionId := prop session "encryptedSessionId";
           arg_cookieOpts := cookieOpts;
           arg_secret := secret;
           arg_prevSession := Some session |}
        (fun session' => Done (Request.set_session request session')).

(** The hook that [preHandler (options)] returns. *)
Definition handleSession (host : Host) (options : Options) (now : Z)
    (request : Request.t) : prog :=
  let secret := secret options in
  match cookie options with
  | None => Throw
  | Some cookieOpts =>
      let url := url (Request.req request) in
      if negb (indexOf url (or_string (path cookieOpts) "/") =? 0)
      then Done request
      else
        match cookie_named request (cookieName options) with
        | None => newSession secret request cookieOpts
        | Some sessionId =>
            if String.eqb sessionId ""
            then newSession secret request cookieOpts
            else
              match secret with
              | None => Throw
              | Some secret' =>
                  match unsign host sessionId secret' with
                  | None => newSession secret request cookieOpts
                  | Some decryptedSessionId =>
                      match store options with
                      | None => Throw
                      | Some store =>
                          StoreGet store decryptedSessionId
                            (getCallback host store secret cookieOpts
                               sessionId now request)
                      end
                  end
              end
        end
  end.

Definition preHandler (host : Host) (options : Options)
  : Z -> Request.t -> prog :=
  handleSession host options.

(** The hook that [onSend (options)] returns. *)
Definition saveSession (options : Options) (request : Request.t) : prog :=
  let session := Request.session request in
  if negb (truthy session) || negb (truthy (prop session "sessionId"))
  then Done request
  else
    match shouldSaveSession request (cookie options) (saveUninitialized options) with
    | None => Throw
    | Some false => Done request
    | Some true =>
        match store options with
        | None => Throw
        | Some store =>
            StoreSet store (prop session "sessionId") session (fun err =>
              if truthy err then Fail err
              else
                SetCookie (cookieName options)
                  (prop session "encryptedSessionId") (prop session "cookie")
                  (Done request))
        end
    end.

Definition onSend (options : Options) : Request.t -> prog :=
  saveSession options.

(** What a successful setup leaves on the server: the two request
    decorators and the two hooks. *)
Record Registered : Type := {
  sessionStore : option Store;
  session_decorator : value;
  preHandler_hook : Z -> Request.t -> prog;
  onSend_hook : Request.t -> prog;
}.

(** [next (error)] or [next ()] *)
Inductive Setup : Type :=
| next_error (error : Error)
| next_ok (fastify : Registered).

Definition session (host : Host) (options : Options) : Setup :=
  match checkOptions options with
  | Some error => next_error error
  | None =>
      let options := ensureDefaults host options in
      next_ok
        {| sessionStore := store options;
           session_decorator := VObj ∅;
           preHandler_hook := preHandler host options;
           onSend_hook := onSend options |}
  end.

(** ** Vocabulary of the properties *)

(** The request path falls under the configured cookie path. *)
Definition in_scope (cookieOpts : CookieOpts) (request : Request.t) : bool :=
  String.prefix (or_string (path cookieOpts) "/") (url (Request.req request)).

(** The arguments [newSession] gives to [new Session]: the pair the
    generator yields, the configured cookie options and the secret. *)
Definition fresh (host : Host) (secret : option string)
    (cookieOpts : CookieOpts) : SessionArgs :=
  {| arg_sessionId := sessionId (generateSessionIds host secret);
     arg_encryptedSessionId := encryptedSessionId (generateSessionIds host secret);
     arg_cookieOpts := cookieOpts;
     arg_secret := secret;
     arg_prevSession := None |}.

(** The run of [newSession]: one call to the generator, one session
    built from its result and attached to the request. *)
Definition minted (host : Host) (secret : option string)
    (cookieOpts : CookieOpts) (request : Request.t) : list event * outcome :=
  ([EGenerate secret; ENew (fresh host secret cookieOpts)],
   Finished (Request.set_session request
               (Session host (fresh host secret cookieOpts)))).

(** The test [handleSession] applies to a record it found: [expires] is
    there (truthy) and not later than [now]. *)
Definition expired (host : Host) (record : value) (now : Z) : bool :=
  truthy (prop record "expires") && le_number host (prop record "expires") now.

(** The transport test of [shouldSaveSession]: the cookie is not marked
    secure, or the connection is encrypted, or the request was forwarded
    from https. *)
Definition transport_allows (cookieOpts : CookieOpts) (request : Request.t)
  : bool :=
  negb (is_true (secure cookieOpts))
  || is_true (prop (connection (Request.req request)) "encrypted")
  || bool_decide (Request.headers request !! "x-forwarded-proto" = Some "https").

(** The run of a save: [store.set], then the cookie unless the store
    failed. *)
Definition saved (options : Options) (s : Store) (request : Request.t)
  : list event * outcome :=
  let session := Request.session request in
  let err := store_set s (prop session "sessionId") session in
  if truthy err
  then ([ESet (prop session "sessionId") session], Failed err)
  else ([ESet (prop session "sessionId") session;
         ESetCookie (cookieName options) (prop session "encryptedSessionId")
           (prop session "cookie")],
        Finished request).

(** What it would mean for a hydrated session to take its identity, its
    signed identity and its cookie attributes from the stored record, with
    the record as its data. *)
Definition built_from_record (args : SessionArgs) (record : value) : Prop :=
  arg_sessionId args = prop record "sessionId"
  /\ arg_encryptedSessionId args = prop record "encryptedSessionId"
  /\ cookie_object (arg_cookieOpts args) = prop record "cookie"
  /\ arg_prevSession args = Some record.

(** The calls one run of the inbound hook can make: nothing; or a new
    session; or one [get], followed by nothing, by a new session, by a
    session built from the record, or by one [destroy] and then nothing or
    a new session. *)
Inductive inbound_calls : list event -> Prop :=
| calls_nothing :
    inbound_calls []
| calls_mint secret args :
    inbound_calls [EGenerate secret; ENew args]
| calls_get id :
    inbound_calls [EGet id]
| calls_get_mint id secret args :
    inbound_calls [EGet id; EGenerate secret; ENew args]
| calls_get_hydrate id args :
    inbound_calls [EGet id; ENew args]
| calls_get_destroy id key :
    inbound_calls [EGet id; EDestroy key]
| calls_get_destroy_mint id key secret args :
    inbound_calls [EGet id; EDestroy key; EGenerate secret; ENew args].

(** Two runs end the same way: with the same error, or with [done()] and
    the same session on the request. *)
Definition same_outcome (o1 o2 : outcome) : Prop :=
  match o1, o2 with
  | Finished request1, Finished request2 =>
      Request.session request1 = Request.session request2
  | Failed err1, Failed err2 => err1 = err2
  | Threw, Threw => True
  | _, _ => False
  end.

(** Modelled from the spec: the contract of [generateSessionIds] of
    [./utils], whose code is not in [lib/fastifySession.js].  The spec has
    it produce "a new high-entropy random identifier and its signed
    representation": the identifier and the signed identifier it yields
    are none of the identifiers [known] so far (the ids and signed ids
    already issued or stored, and whatever a client has sent). *)
Definition generates_new (host : Host) (secret : option string)
    (known : list value) : Prop :=
  ~ In (sessionId (generateSessionIds host secret)) known
  /\ ~ In (encryptedSessionId (generateSessionIds host secret)) known.

(** ** A host and stores for the examples

    The properties below hold for every host and every store.  The closed
    examples run the hooks against the stand-ins of this section: a
    signature scheme of the shape of [cookie-signature] (the signed form
    is the id, a dot and a keyed digest), a generator that always yields
    the same pair, a [Session] class that records its arguments as
    properties, and stores that answer from a table. *)

Module Example.

(** [s.lastIndexOf(".")] *)
Fixpoint lastIndexOf_dot (s : string) : Z :=
  match s with
  | EmptyString => -1
  | String c s' =>
      let i := lastIndexOf_dot s' in
      if 0 <=? i then i + 1
      else if Ascii.eqb c "."%char then 0 else -1
  end.

(** [s.slice(0, k)] *)
Definition slice0 (s : string) (k : Z) : string :=
  let len := Z.of_nat (String.length s) in
  let to := if k <? 0 then Z.max (len + k) 0 else Z.min k len in
  substring 0 (Z.to_nat to) s.

(** The keyed digest of the stand-in: the first six characters of the
    secret. *)
Definition digest (val secret : string) : string :=
  substring 0 6 secret.

Definition sign (val secret : string) : string :=
  val ++ "." ++ digest val secret.

Definition unsign (input secret : string) : option string :=
  let str := slice0 input (lastIndexOf_dot input) in
  if String.eqb (sign str secret) input then Some str else None.

(** Unsigned decimal numerals; the examples compare numbers only. *)
Fixpoint decimal (acc : Z) (s : string) : option Z :=
  match s with
  | EmptyString => Some acc
  | String c s' =>
      let d := Z.of_nat (Ascii.nat_of_ascii c) - 48 in
      if (0 <=? d) && (d <=? 9) then decimal (10 * acc + d) s' else None
  end.

(** A session object: the data of the previous session, if any, under
    the four properties every session has. *)
Definition Session (args : SessionArgs) : value :=
  let data :=
    match arg_prevSession args with
    | Some (VObj props) => props
    | _ => ∅
    end in
  VObj (<["sessionId" := arg_sessionId args]>
        (<["encryptedSessionId" := arg_encryptedSessionId args]>
         (<["cookie" := cookie_object (arg_cookieOpts args)]>
          (<["expires" := VNull]> data)))).

(** An in-memory store holding the given records; no call fails. *)
Definition memory (records : gmap string value) : Store :=
  {| store_get id := (VNull, default VUndefined (records !! id));
     store_set _ _ := VNull;
     store_destroy _ := VNull |}.

(** A store whose every call fails with [err]. *)
Definition failing (err : value) : Store :=
  {| store_get _ := (err, VUndefined);
     store_set _ _ := err;
     store_destroy _ := err |}.

Definition secret32 : string := "0123456789abcdef0123456789abcdef".

Definition host : Host :=
  Build_Host
    unsign
    (fun _ => {| sessionId := VStr "n3w";
                 encryptedSessionId := VStr (sign "n3w" secret32) |})
    Session
    (memory ∅)
    (decimal 0).

(** The options after setup, for an application that passes the secret,
    a store and possibly cookie options and [saveUninitialized]. *)
Definition configure (s : Store) (cookieOpts : option CookieOpts)
    (saveUninitialized : value) : Options :=
  ensureDefaults host
    {| secret := Some secret32;
       store := Some s;
       cookieName := None;
       cookie := cookieOpts;
       saveUninitialized := saveUninitialized |}.

(** The cookie options of [configure s None v]. *)
Definition secure_cookie : CookieOpts :=
  {| path := None; secure := VBool true; attributes := ∅ |}.

Definition plain_cookie : CookieOpts :=
  {| path := Some "/app"; secure := VBool false; attributes := ∅ |}.

(** A request as the server hands it to the hooks: [session] is the
    empty object of the decorator. *)
Definition request (url' : string) (cookies' : gmap string string) : Request.t :=
  {| Request.req := {| url := url'; connection := VObj ∅ |};
     Request.cookies := cookies';
     Request.headers := ∅;
     Request.session := VObj ∅ |}.

(** A stored record for the id ["abc"]. *)
Definition record (expires : value) : value :=
  VObj (<["sessionId" := VStr "abc"]>
        (<["encryptedSessionId" := VStr "abc.012345"]>
         (<["cookie" := cookie_object plain_cookie]>
          (<["expires" := expires]>
           (<["user" := VStr "ann"]> ∅))))).

(** The request of a client that holds the signed cookie of ["abc"]. *)
Definition returning : Request.t :=
  request "/" {["sessionId" := "abc.012345"]}.

(** A request at response time, carrying the given session. *)
Definition responding (session : value) (connection' : value)
    (headers' : gmap string string) : Request.t :=
  {| Request.req := {| url := "/"; connection := connection' |};
     Request.cookies := ∅;
     Request.headers := headers';
     Request.session := session |}.

(** Options as an application passes them that sets the secret only. *)
Definition raw : Options :=
  {| secret := Some secret32;
     store := None;
     cookieName := None;
     cookie := None;
     saveUninitialized := VUndefined |}.

(** The session [newSession] attaches under [host], left untouched. *)
Definition untouched (cookieOpts : CookieOpts) : value :=
  Session (fresh host (Some secret32) cookieOpts).

(** A backend failure. *)
Definition io_error : value :=
  VObj {["code" := VStr "ECONNRESET"]}.

(** The error of a store that reports a miss as an error. *)
Definition not_found : value :=
  VObj {["code" := VStr "ENOENT"]}.

End Example.

(** Closed facts about the examples are settled by evaluation. *)
Ltac evaluate := vm_compute; reflexivity.

(** ** Properties of the JavaScript layer *)

Lemma indexOf_prefix (s p : string) :
  indexOf s p = 0 <-> String.prefix p s = true.
Proof.
  unfold indexOf. destruct s as [|c s].
  - destruct p; cbn; split; intros H; (reflexivity || discriminate H).
  - cbn [String.index].
    destruct (String.prefix p (String c s)); [split; reflexivity|].
    destruct (String.index 0 p s); split; intros H;
      (discriminate H || lia).
Qed.

Lemma in_scope_indexOf (cookieOpts : CookieOpts) (request : Request.t) :
  negb (indexOf (url (Request.req request)) (or_string (path cookieOpts) "/") =? 0)
  = negb (in_scope cookieOpts request).
Proof.
  unfold in_scope. f_equal.
  destruct (String.prefix _ _) eqn:Hp.
  - apply Z.eqb_eq, indexOf_prefix, Hp.
  - apply Z.eqb_neq. intros H. apply indexOf_prefix in H. congruence.
Qed.

Lemma encrypted_truthy (connection : value) :
  truthy connection && is_true (prop connection "encrypted")
  = is_true (prop connection "encrypted").
Proof. destruct connection; cbn; rewrite ?andb_false_r; reflexivity. Qed.

Lemma is_true_spec (v : value) : is_true v = true <-> v = VBool true.
Proof.
  destruct v as [| |[]| | | |]; cbn; split; congruence.
Qed.

(** ** Properties of the helpers *)

Lemma run_newSession (host : Host) (secret : option string)
    (request : Request.t) (cookieOpts : CookieOpts) :
  run host (newSession secret request cookieOpts)
  = minted host secret cookieOpts request.
Proof. reflexivity. Qed.

Lemma shouldSaveSession_transport (request : Request.t)
    (cookieOpts : CookieOpts) (saveUninitialized : value) :
  negb (truthy saveUninitialized)
    && negb (isSessionModified (Request.session request)) = false ->
  shouldSaveSession request (Some cookieOpts) saveUninitialized
  = Some (transport_allows cookieOpts request).
Proof.
  intros Hcheck. unfold shouldSaveSession, transport_allows.
  rewrite Hcheck, encrypted_truthy.
  destruct (is_true (secure cookieOpts)); cbn; [|reflexivity].
  destruct (is_true (prop _ "encrypted")); reflexivity.
Qed.

(** ** The hooks of a configured plugin

    The hooks only ever run on options that went through [session]: the
    secret is there, and [ensureDefaults] has filled in the store, the
    cookie name and the cookie options. *)

Section Hooks.

Context (host : Host) (options : Options).
Context (sec : string) (copts : CookieOpts) (st : Store) (cname : string).

Hypothesis has_secret : secret options = Some sec.
Hypothesis has_cookie : cookie options = Some copts.
Hypothesis has_store : store options = Some st.
Hypothesis has_name : cookieName options = Some cname.

Lemma handleSession_out_of_scope (now : Z) (request : Request.t) :
  in_scope copts request = false ->
  handleSession host options now request = Done request.
Proof.
  intros Hscope. unfold handleSession.
  rewrite has_cookie, in_scope_indexOf, Hscope. reflexivity.
Qed.

Lemma handleSession_no_cookie (now : Z) (request : Request.t) :
  in_scope copts request = true ->
  Request.cookies request !! cname = None
  \/ Request.cookies request !! cname = Some "" ->
  handleSession host options now request
  = newSession (Some sec) request copts.
Proof.
  intros Hscope Hcookie. unfold handleSession, cookie_named.
  rewrite has_cookie, has_secret, has_name, in_scope_indexOf, Hscope. cbn.
  destruct Hcookie as [-> | ->]; reflexivity.
Qed.

Lemma handleSession_bad_signature (now : Z) (request : Request.t) (c : string) :
  in_scope copts request = true ->
  Request.cookies request !! cname = Some c ->
  unsign host c sec = None ->
  handleSession host options now request
  = newSession (Some sec) request copts.
Proof.
  intros Hscope Hcookie Hunsign. unfold handleSession, cookie_named.
  rewrite has_cookie, has_secret, has_name, in_scope_indexOf, Hscope. cbn.
  rewrite Hcookie, Hunsign. destruct (String.eqb c ""); reflexivity.
Qed.

Lemma handleSession_lookup (now : Z) (request : Request.t) (c id : string) :
  in_scope copts request = true ->
  Request.cookies request !! cname = Some c ->
  c <> "" ->
  unsign host c sec = Some id ->
  handleSession host options now request
  = StoreGet st id (getCallback host st (Some sec) copts c now request).
Proof.
  intros Hscope Hcookie Hne Hunsign. unfold handleSession, cookie_named.
  rewrite has_cookie, has_secret, has_store, has_name, in_scope_indexOf, Hscope.
  cbn. rewrite Hcookie, Hunsign.
  destruct (String.eqb_spec c ""); [contradiction | reflexivity].
Qed.

Lemma run_lookup (now : Z) (request : Request.t) (c id : string) :
  in_scope copts request = true ->
  Request.cookies request !! cname = Some c ->
  c <> "" ->
  unsign host c sec = Some id ->
  run host (handleSession host options now request)
  = after (EGet id)
      (run host (getCallback host st (Some sec) copts c now request
                   (fst (store_get st id)) (snd (store_get st id)))).
Proof.
  intros Hscope Hcookie Hne Hunsign.
  rewrite (handleSession_lookup now request c id) by assumption.
  reflexivity.
Qed.

(** What the hook does with an expired record: the key given to
    [store.destroy] is the cookie value [c], not the id [id] that
    [store.get] was asked for. *)
Lemma run_expired (now : Z) (request : Request.t) (c id : string)
    (err record : value) :
  in_scope copts request = true ->
  Request.cookies request !! cname = Some c ->
  c <> "" ->
  unsign host c sec = Some id ->
  store_get st id = (err, record) ->
  truthy err = false ->
  truthy record = true ->
  expired host record now = true ->
  run host (handleSession host options now request)
  = after (EGet id)
      (after (EDestroy c)
         (if truthy (store_destroy st c)
          then ([], Failed (store_destroy st c))
          else minted host (Some sec) copts request)).
Proof.
  intros Hscope Hcookie Hne Hunsign Hget Herr Hrecord Hexpired.
  rewrite (run_lookup now request c id) by assumption.
  rewrite Hget. cbn [fst snd]. unfold getCallback.
  rewrite Herr, Hrecord. unfold expired in Hexpired.
  cbn [negb andb]. rewrite Hexpired. cbn [run].
  unfold getDestroyCallback.
  destruct (truthy (store_destroy st c)); reflexivity.
Qed.

(** C2: a request in scope that carries no cookie value, or a cookie whose
    signature does not verify, gets a freshly minted session: the hook is the
    same program [newSession] in both cases; it calls the generator once and
    builds one session from the pair the generator yields, which ends up as
    the session of the request while nothing else of the request changes; it
    ends without error and never calls [store.get].  The identifier and the
    signed identifier of that session are new: whenever the generator yields a
    pair outside the identifiers known so far (its contract), the session that
    is built and attached carries none of the known identifiers, the cookie
    that was presented among them. *)
Theorem C2_missing_or_forged_cookie_mints_fresh (now : Z) (request : Request.t) :
  in_scope copts request = true ->
  (Request.cookies request !! cname = None
   \/ Request.cookies request !! cname = Some ""
   \/ exists c, Request.cookies request !! cname = Some c
                /\ unsign host c sec = None) ->
  handleSession host options now request = newSession (Some sec) request copts
  /\ run host (handleSession host options now request)
     = ([EGenerate (Some sec); ENew (fresh host (Some sec) copts)],
        Finished (Request.set_session request
                    (Session host (fresh host (Some sec) copts))))
  /\ arg_sessionId (fresh host (Some sec) copts)
     = sessionId (generateSessionIds host (Some sec))
  /\ arg_encryptedSessionId (fresh host (Some sec) copts)
     = encryptedSessionId (generateSessionIds host (Some sec))
  /\ (forall id, ~ In (EGet id) (trace host (handleSession host options now request)))
  /\ (forall err, result host (handleSession host options now request) <> Failed err)
  /\ (exists (request' : Request.t) (args : SessionArgs),
        trace host (handleSession host options now request)
        = [EGenerate (Some sec); ENew args]
        /\ result host (handleSession host options now request)
           = Finished request'
        /\ Request.session request' = Session host args
        /\ Request.req request' = Request.req request
        /\ Request.cookies request' = Request.cookies request
        /\ Request.headers request' = Request.headers request
        /\ arg_sessionId args = sessionId (generateSessionIds host (Some sec))
        /\ arg_encryptedSessionId args
           = encryptedSessionId (generateSessionIds host (Some sec))
        /\ arg_cookieOpts args = copts
        /\ arg_prevSession args = None
        /\ (forall known : list value,
              generates_new host (Some sec) known ->
              ~ In (arg_sessionId args) known
              /\ ~ In (arg_encryptedSessionId args) known)).
Proof.
  intros Hscope Hcookie.
  assert (Hprog : handleSession host options now request
                  = newSession (Some sec) request copts).
  { destruct Hcookie as [H | [H | (c & H & Hunsign)]].
    - apply handleSession_no_cookie; auto.
    - apply handleSession_no_cookie; auto.
    - eapply handleSession_bad_signature; eauto. }
  unfold trace, result. rewrite Hprog, run_newSession. unfold minted.
  repeat split; cbn.
  - intros id [H | [H | []]]; discriminate H.
  - intros err H; discriminate H.
  - exists (Request.set_session request
              (Session host (fresh host (Some sec) copts))),
           (fresh host (Some sec) copts).
    repeat split;
      match goal with
      | Hnew : generates_new _ _ _ |- _ => destruct Hnew; assumption
      end.
Qed.

(** C3: when the callback of [store.get] receives an error, a fresh session
    is minted if the error's code is ['ENOENT'], and any other error ends the
    hook with [done(err)], no session being attached; when it receives no
    error and no record, a fresh session is minted as well. *)
Theorem C3_store_get_error_or_miss (now : Z) (request : Request.t)
    (c id : string) (err record : value) :
  in_scope copts request = true ->
  Request.cookies request !! cname = Some c ->
  c <> "" ->
  unsign host c sec = Some id ->
  store_get st id = (err, record) ->
  let outcome := run host (handleSession host options now request) in
  (truthy err = true -> prop err "code" = VStr "ENOENT" ->
   outcome = after (EGet id) (minted host (Some sec) copts request))
  /\ (truthy err = true -> prop err "code" <> VStr "ENOENT" ->
      outcome = ([EGet id], Failed err))
  /\ (truthy err = false -> truthy record = false ->
      outcome = after (EGet id) (minted host (Some sec) copts request)).
Proof.
  intros Hscope Hcookie Hne Hunsign Hget outcome. subst outcome.
  rewrite (run_lookup now request c id) by assumption.
  rewrite Hget. cbn [fst snd]. unfold getCallback.
  repeat split.
  - intros -> ->. reflexivity.
  - intros -> Hcode.
    assert (is_string (prop err "code") "ENOENT" = false) as ->; [|reflexivity].
    destruct (prop err "code") as [| | | |s| |]; try reflexivity. cbn.
    destruct (String.eqb_spec s "ENOENT"); congruence.
  - intros -> ->. reflexivity.
Qed.

(** C9 (amended): for a request in scope whose signed cookie verifies and
    whose record is found and not expired, the attached session is
    [new Session] of the record's [sessionId] and [encryptedSessionId], of
    the configured cookie options and secret, and of the record itself as
    the previous session. *)
Theorem C9_live_record_hydrates (now : Z) (request : Request.t)
    (c id : string) (err record : value) :
  in_scope copts request = true ->
  Request.cookies request !! cname = Some c ->
  c <> "" ->
  unsign host c sec = Some id ->
  store_get st id = (err, record) ->
  truthy err = false ->
  truthy record = true ->
  expired host record now = false ->
  let args :=
    {| arg_sessionId := prop record "sessionId";
       arg_encryptedSessionId := prop record "encryptedSessionId";
       arg_cookieOpts := copts;
       arg_secret := Some sec;
       arg_prevSession := Some record |} in
  run host (handleSession host options now request)
  = ([EGet id; ENew args],
     Finished (Request.set_session request (Session host args))).
Proof.
  intros Hscope Hcookie Hne Hunsign Hget Herr Hrecord Hlive args.
  rewrite (run_lookup now request c id) by assumption.
  rewrite Hget. cbn [fst snd]. unfold getCallback.
  rewrite Herr, Hrecord. unfold expired in Hlive.
  cbn [negb andb]. rewrite Hlive. reflexivity.
Qed.

(** C8: for a request whose path is not under the configured cookie path
    the inbound hook does nothing and leaves the request as it came; and on
    a request whose session has no [sessionId] (as the empty object of the
    decorator) the outbound hook calls neither the store nor [setCookie]. *)
Theorem C8_out_of_scope_is_skipped (now : Z) (request : Request.t) :
  in_scope copts request = false ->
  run host (handleSession host options now request) = ([], Finished request)
  /\ (truthy (prop (Request.session request) "sessionId") = false ->
      run host (saveSession options request) = ([], Finished request)).
Proof.
  intros Hscope. split.
  - rewrite handleSession_out_of_scope by assumption. reflexivity.
  - intros Hid. unfold saveSession. rewrite Hid, orb_true_r. reflexivity.
Qed.

End Hooks.

(** ** The outbound hook *)

Section Persistence.

Context (host : Host) (options : Options).
Context (copts : CookieOpts) (st : Store).

Hypothesis has_cookie : cookie options = Some copts.
Hypothesis has_store : store options = Some st.

Lemma run_saveSession (request : Request.t) (decision : bool) :
  truthy (Request.session request) = true ->
  truthy (prop (Request.session request) "sessionId") = true ->
  shouldSaveSession request (Some copts) (saveUninitialized options)
  = Some decision ->
  run host (saveSession options request)
  = if decision then saved options st request else ([], Finished request).
Proof.
  intros Hsession Hid Hdecision. unfold saveSession, saved.
  rewrite Hsession, Hid, has_cookie, Hdecision. cbn [negb orb].
  destruct decision; [|reflexivity].
  rewrite has_store. cbn [run].
  destruct (truthy (store_set st _ _)); reflexivity.
Qed.

(** C4: when the outbound hook decides to save, it calls [store.set] with
    the session's [sessionId] and the session first; the cookie is set, with
    the session's [encryptedSessionId] and [cookie], only after a [set] that
    reported no error; when [set] reports an error the hook ends with
    [done(err)] and no cookie is set. *)
Theorem C4_set_before_cookie (request : Request.t) :
  truthy (Request.session request) = true ->
  truthy (prop (Request.session request) "sessionId") = true ->
  shouldSaveSession request (cookie options) (saveUninitialized options)
  = Some true ->
  let session := Request.session request in
  let err := store_set st (prop session "sessionId") session in
  (truthy err = false ->
   run host (saveSession options request)
   = ([ESet (prop session "sessionId") session;
       ESetCookie (cookieName options) (prop session "encryptedSessionId")
         (prop session "cookie")],
      Finished request))
  /\ (truthy err = true ->
      run host (saveSession options request)
      = ([ESet (prop session "sessionId") session], Failed err)).
Proof.
  intros Hsession Hid Hdecision session err.
  rewrite has_cookie in Hdecision.
  rewrite (run_saveSession request true) by assumption.
  unfold saved. fold session. fold err.
  split; intros ->; reflexivity.
Qed.

(** C5: for a session with an identity that passed the [saveUninitialized]
    test, the decision is to save whenever the cookie's [secure] is not
    [true]; when it is [true], the decision is to save if and only if the
    connection's [encrypted] is [true] or the [x-forwarded-proto] header is
    ['https'].  A positive decision runs the save ([store.set], then the
    cookie); a negative one calls neither the store nor [setCookie]. *)
Theorem C5_secure_cookie_gating (request : Request.t) :
  negb (truthy (saveUninitialized options))
    && negb (isSessionModified (Request.session request)) = false ->
  truthy (Request.session request) = true ->
  truthy (prop (Request.session request) "sessionId") = true ->
  let decision :=
    shouldSaveSession request (cookie options) (saveUninitialized options) in
  let encrypted :=
    prop (connection (Request.req request)) "encrypted" = VBool true in
  let https :=
    Request.headers request !! "x-forwarded-proto" = Some "https" in
  (secure copts <> VBool true ->
   decision = Some true
   /\ run host (saveSession options request) = saved options st request)
  /\ (secure copts = VBool true ->
      (decision = Some true <-> encrypted \/ https)
      /\ (encrypted \/ https ->
          run host (saveSession options request) = saved options st request)
      /\ (~ (encrypted \/ https) ->
          decision = Some false
          /\ run host (saveSession options request) = ([], Finished request))).
Proof.
  intros Hcheck Hsession Hid decision encrypted https.
  subst decision encrypted https. rewrite has_cookie.
  pose proof (shouldSaveSession_transport request copts _ Hcheck) as Hdecision.
  pose proof (run_saveSession request _ Hsession Hid Hdecision) as Hrun.
  rewrite Hdecision, Hrun. unfold transport_allows.
  pose proof (is_true_spec (secure copts)) as Hsecure.
  pose proof (is_true_spec (prop (connection (Request.req request)) "encrypted"))
    as Hencrypted.
  pose proof (bool_decide_eq_true
                (Request.headers request !! "x-forwarded-proto" = Some "https"))
    as Hhttps.
  destruct (is_true (secure copts)), (is_true (prop _ "encrypted")),
    (bool_decide _); cbn [negb orb];
    intuition (try discriminate; try congruence).
Qed.

End Persistence.

(** C6: when [saveUninitialized] is false (or any falsy value) and the
    session has exactly four enumerable keys, the outbound hook calls
    neither [store.set] nor [setCookie]. *)
Theorem C6_uninitialized_session_not_saved (host : Host) (options : Options)
    (request : Request.t) :
  truthy (saveUninitialized options) = false ->
  keys_length (Request.session request) = 4%nat ->
  shouldSaveSession request (cookie options) (saveUninitialized options)
  = Some false
  /\ run host (saveSession options request) = ([], Finished request).
Proof.
  intros Hpolicy Hkeys.
  assert (Hdecision : shouldSaveSession request (cookie options)
                        (saveUninitialized options) = Some false).
  { unfold shouldSaveSession, isSessionModified.
    rewrite Hpolicy, Hkeys. reflexivity. }
  split; [exact Hdecision|].
  unfold saveSession. rewrite Hdecision.
  destruct (negb _ || negb _); reflexivity.
Qed.

(** ** Setup *)

Lemma checkOptions_spec (options : Options) :
  checkOptions options = None
  <-> exists s, secret options = Some s /\ (32 <= String.length s)%nat.
Proof.
  unfold checkOptions. destruct (secret options) as [s|].
  - destruct (String.eqb_spec s "") as [->|Hne];
      [split; [discriminate | intros (s & [= <-] & Hlen); cbn in Hlen; lia]|].
    destruct (Z.ltb_spec (Z.of_nat (String.length s)) 32).
    + split; [discriminate | intros (s' & [= <-] & Hlen); lia].
    + split; [intros _; exists s; split; [reflexivity | lia] | reflexivity].
  - split; [discriminate | intros (s & [=] & _)].
Qed.

Lemma session_next_ok (host : Host) (raw : Options) (fastify : Registered) :
  session host raw = next_ok fastify ->
  checkOptions raw = None
  /\ preHandler_hook fastify = handleSession host (ensureDefaults host raw)
  /\ onSend_hook fastify = saveSession (ensureDefaults host raw).
Proof.
  unfold session. destruct (checkOptions raw); [discriminate|].
  intros [= <-]. repeat split.
Qed.

(** The hooks that setup registers run on options in which the secret,
    the cookie options, the store and the cookie name are all there: the
    assumptions of the sections above. *)
Lemma session_hooks_configured (host : Host) (raw : Options)
    (fastify : Registered) :
  session host raw = next_ok fastify ->
  exists (options : Options) (sec : string) (copts : CookieOpts) (st : Store)
         (cname : string),
    secret options = Some sec
    /\ cookie options = Some copts
    /\ store options = Some st
    /\ cookieName options = Some cname
    /\ preHandler_hook fastify = handleSession host options
    /\ onSend_hook fastify = saveSession options.
Proof.
  intros Hsetup.
  apply session_next_ok in Hsetup as (Hcheck & Hpre & Hsend).
  apply checkOptions_spec in Hcheck as (sec & Hsec & _).
  exists (ensureDefaults host raw), sec. cbn. eauto 10.
Qed.

(** Every error the inbound hook hands to [done] is one the store handed
    to a callback. *)
Lemma handleSession_fails_with_store_error (host : Host) (options : Options)
    (now : Z) (request : Request.t) (err : value) :
  result host (handleSession host options now request) = Failed err ->
  exists s, store options = Some s
    /\ ((exists id, err = fst (store_get s id))
        \/ (exists id, err = store_destroy s id)).
Proof.
  unfold result, handleSession.
  destruct (cookie options) as [cookieOpts|]; [|discriminate].
  destruct (negb _); [discriminate|].
  destruct (cookie_named _ _) as [c|]; [|discriminate].
  destruct (String.eqb c ""); [discriminate|].
  destruct (secret options) as [sec|]; [|discriminate].
  destruct (unsign host c sec) as [id|]; [|discriminate].
  destruct (store options) as [s|]; [|discriminate].
  cbn [run after snd]. unfold getCallback, getDestroyCallback.
  intros H. exists s. split; [reflexivity|].
  destruct (truthy (fst (store_get s id))).
  - destruct (is_string _ _); [discriminate H|].
    injection H as <-. left. exists id. reflexivity.
  - destruct (negb _); [discriminate H|].
    destruct (_ && _); [|discriminate H].
    cbn [run after snd] in H.
    destruct (truthy (store_destroy s c)); [|discriminate H].
    injection H as <-. right. exists c. reflexivity.
Qed.

(** Every error the outbound hook hands to [done] is one the store handed
    to the callback of [set]. *)
Lemma saveSession_fails_with_store_error (host : Host) (options : Options)
    (request : Request.t) (err : value) :
  result host (saveSession options request) = Failed err ->
  exists s id session, store options = Some s /\ err = store_set s id session.
Proof.
  unfold result, saveSession.
  destruct (negb _ || negb _); [discriminate|].
  destruct (shouldSaveSession _ _ _) as [[]|]; try discriminate.
  destruct (store options) as [s|]; [|discriminate].
  cbn [run after snd]. intros H.
  destruct (truthy (store_set s _ _)); [|discriminate H].
  injection H as <-. eauto.
Qed.

(** C7: setup ends with an error exactly when the secret is missing or
    shorter than 32 characters, and registers the two hooks for any secret of
    32 characters or more; the hooks themselves never check the secret: the
    only errors they end with are the ones the store reported. *)
Theorem C7_secret_checked_at_setup (host : Host) (raw : Options) :
  ((exists error, session host raw = next_error error)
   <-> secret raw = None
       \/ exists s, secret raw = Some s /\ (String.length s < 32)%nat)
  /\ (forall s, secret raw = Some s -> (32 <= String.length s)%nat ->
      exists fastify, session host raw = next_ok fastify)
  /\ (forall options now request err,
        result host (handleSession host options now request) = Failed err ->
        exists s, store options = Some s
          /\ ((exists id, err = fst (store_get s id))
              \/ (exists id, err = store_destroy s id)))
  /\ (forall options request err,
        result host (saveSession options request) = Failed err ->
        exists s id session,
          store options = Some s /\ err = store_set s id session).
Proof.
  pose proof (checkOptions_spec raw) as Hcheck.
  repeat split.
  - intros (error & Hsetup). unfold session in Hsetup.
    destruct (checkOptions raw) eqn:Hc; [|discriminate Hsetup].
    destruct (secret raw) as [s|]; [right | left; reflexivity].
    exists s. split; [reflexivity|].
    destruct (le_lt_dec 32 (String.length s)) as [Hlen|Hlen]; [|exact Hlen].
    assert (Some e = None) as [=]. { apply Hcheck. eauto. }
  - intros Hsecret. unfold session.
    destruct (checkOptions raw) as [error|]; [eauto|].
    destruct Hcheck as [Hc _]. destruct (Hc eq_refl) as (s & Hs & Hlen).
    destruct Hsecret as [H | (s' & H & Hlen')]; rewrite Hs in H;
      [discriminate H | injection H as ->; lia].
  - intros s Hs Hlen. unfold session.
    assert (checkOptions raw = None) as -> by (apply Hcheck; eauto).
    eauto.
  - apply handleSession_fails_with_store_error.
  - apply saveSession_fails_with_store_error.
Qed.

(** C10: when the application leaves [saveUninitialized] out, setup sets it
    to [true]; the decision of the outbound hook is then the transport test
    alone, whatever the session looks like, and for a session with a
    [sessionId] the hook runs the save ([store.set], then the cookie unless
    the store failed) whenever the transport test passes. *)
Theorem C10_default_policy_saves_untouched_sessions (host : Host)
    (raw : Options) (fastify : Registered) (copts : CookieOpts) (st : Store)
    (request : Request.t) :
  saveUninitialized raw = VUndefined ->
  session host raw = next_ok fastify ->
  cookie (ensureDefaults host raw) = Some copts ->
  store (ensureDefaults host raw) = Some st ->
  truthy (Request.session request) = true ->
  truthy (prop (Request.session request) "sessionId") = true ->
  saveUninitialized (ensureDefaults host raw) = VBool true
  /\ (forall request' : Request.t,
        shouldSaveSession request' (Some copts)
          (saveUninitialized (ensureDefaults host raw))
        = Some (transport_allows copts request'))
  /\ (forall session' : value,
        transport_allows copts (Request.set_session request session')
        = transport_allows copts request)
  /\ run host (onSend_hook fastify request)
     = if transport_allows copts request
       then saved (ensureDefaults host raw) st request
       else ([], Finished request).
Proof.
  intros Hraw Hsetup Hcookie Hstore Hsession Hid.
  apply session_next_ok in Hsetup as (_ & _ & ->).
  assert (Hpolicy : saveUninitialized (ensureDefaults host raw) = VBool true).
  { cbn. rewrite Hraw. reflexivity. }
  assert (Hdecision : forall request' : Request.t,
             shouldSaveSession request' (Some copts)
               (saveUninitialized (ensureDefaults host raw))
             = Some (transport_allows copts request')).
  { intros request'. apply shouldSaveSession_transport.
    rewrite Hpolicy. reflexivity. }
  repeat split; auto.
  apply (run_saveSession host _ copts st Hcookie Hstore request _ Hsession Hid).
  apply Hdecision.
Qed.

(** ** The hooks at work *)

Lemma length_append (s1 s2 : string) :
  String.length (s1 ++ s2) = (String.length s1 + String.length s2)%nat.
Proof.
  induction s1 as [|c s1 IH]; simpl; [reflexivity | f_equal; exact IH].
Qed.

(** Under the stand-in signature scheme, as under [cookie-signature], the
    value a cookie unsigns to is never the cookie value itself. *)
Lemma Example_unsign_shorter (input secret id : string) :
  Example.unsign input secret = Some id -> input <> id.
Proof.
  unfold Example.unsign.
  set (str := Example.slice0 input (Example.lastIndexOf_dot input)).
  destruct (String.eqb_spec (Example.sign str secret) input) as [Heq|];
    [|discriminate].
  intros [= <-] Hsame.
  apply (f_equal String.length) in Heq, Hsame.
  unfold Example.sign in Heq. rewrite !length_append in Heq.
  change (String.length ".") with 1%nat in Heq. lia.
Qed.

(** C1: the client presents the signed cookie of the id ["abc"], whose
    stored record expired at 1000, and the clock shows 2000: the hook asks
    the store for ["abc"] and then calls [store.destroy] with the signed
    cookie value, not with the id of the session. *)
Theorem C1_expired_record_destroyed_under_cookie_value :
  let store := Example.memory {["abc" := Example.record (VNum 1000)]} in
  let options := Example.configure store None VUndefined in
  Example.unsign "abc.012345" Example.secret32 = Some "abc"
  /\ store_get store "abc" = (VNull, Example.record (VNum 1000))
  /\ expired Example.host (Example.record (VNum 1000)) 2000 = true
  /\ trace Example.host (handleSession Example.host options 2000 Example.returning)
     = [EGet "abc"; EDestroy "abc.012345";
        EGenerate (Some Example.secret32);
        ENew (fresh Example.host (Some Example.secret32) Example.secure_cookie)]
  /\ "abc.012345" <> "abc".
Proof.
  repeat split; try (evaluate).
  discriminate.
Qed.

(** C9, as stated, fails: the record stored for ["abc"] carries the cookie
    attributes [{path: '/app', secure: false}], the plugin is configured
    with the default ones; the session is built with the configured
    attributes. *)
Lemma C9_cookie_options_are_not_the_records :
  let record := Example.record VUndefined in
  let options := Example.configure (Example.memory {["abc" := record]}) None VUndefined in
  exists args,
    trace Example.host (handleSession Example.host options 2000 Example.returning)
    = [EGet "abc"; ENew args]
    /\ arg_cookieOpts args = Example.secure_cookie
    /\ prop record "cookie" = cookie_object Example.plain_cookie
    /\ ~ built_from_record args record.
Proof.
  eexists. split; [evaluate|].
  split; [reflexivity|]. split; [evaluate|].
  intros (_ & _ & Hcookie & _). vm_compute in Hcookie. discriminate Hcookie.
Qed.

Example checkOptions_31 :
  checkOptions
    {| secret := Some "0123456789abcdef0123456789abcde"; store := None;
       cookieName := None; cookie := None; saveUninitialized := VUndefined |}
  = Some (mkError "the secret must have length 32 or greater").
Proof. reflexivity. Qed.

Example checkOptions_32 : checkOptions Example.raw = None.
Proof. reflexivity. Qed.

Example checkOptions_missing :
  checkOptions
    {| secret := None; store := None; cookieName := None; cookie := None;
       saveUninitialized := VUndefined |}
  = Some (mkError "the secret option is required!").
Proof. reflexivity. Qed.

Example untouched_has_four_keys :
  keys_length (Example.untouched Example.secure_cookie) = 4%nat.
Proof. evaluate. Qed.

(** [session.expires && ...]: an [expires] of [0] counts as no expiry,
    a [Date] at the epoch does not. *)
Example expires_zero_is_no_expiry :
  expired Example.host (Example.record (VNum 0)) 2000 = false
  /\ expired Example.host (Example.record (VDate 0)) 2000 = true
  /\ expired Example.host (Example.record (VNum 2000)) 2000 = true
  /\ expired Example.host (Example.record (VNum 2001)) 2000 = false.
Proof. repeat split; evaluate. Qed.

(** A store that reports a miss as an [ENOENT] error: a new session. *)
Example get_reports_ENOENT :
  let options :=
    Example.configure (Example.failing Example.not_found) None VUndefined in
  run Example.host (handleSession Example.host options 0 Example.returning)
  = after (EGet "abc")
      (minted Example.host (Some Example.secret32) Example.secure_cookie
         Example.returning).
Proof. evaluate. Qed.

(** A store that holds no record for the id: a new session. *)
Example get_finds_nothing :
  let options := Example.configure (Example.memory ∅) None VUndefined in
  run Example.host (handleSession Example.host options 0 Example.returning)
  = after (EGet "abc")
      (minted Example.host (Some Example.secret32) Example.secure_cookie
         Example.returning).
Proof. evaluate. Qed.

(** A secure cookie over an encrypted connection is saved. *)
Example encrypted_connection_saves :
  let request :=
    Example.responding (Example.record VUndefined)
      (VObj {["encrypted" := VBool true]}) ∅ in
  let options := Example.configure (Example.memory ∅) None VUndefined in
  trace Example.host (saveSession options request)
  = [ESet (VStr "abc") (Example.record VUndefined);
     ESetCookie (Some "sessionId") (VStr "abc.012345")
       (cookie_object Example.plain_cookie)].
Proof. evaluate. Qed.

(** A store that fails on [set]: the error, and no cookie. *)
Example set_fails :
  let request := Example.responding (Example.record VUndefined) (VObj ∅) ∅ in
  let options :=
    Example.configure (Example.failing Example.io_error)
      (Some Example.plain_cookie) VUndefined in
  run Example.host (saveSession options request)
  = ([ESet (VStr "abc") (Example.record VUndefined)], Failed Example.io_error).
Proof. evaluate. Qed.

(** A cookie whose digest is wrong: no call to the store, and a new
    session on the request, whose identifiers are neither the cookie that
    was presented nor the id inside it. *)
Lemma C2_forged_cookie :
  let request := Example.request "/" {["sessionId" := "abc.999999"]} in
  let options := Example.configure (Example.memory ∅) None VUndefined in
  let known := [VStr "abc.999999"; VStr "abc"; VStr "abc.012345"] in
  Example.unsign "abc.999999" Example.secret32 = None
  /\ generates_new Example.host (Some Example.secret32) known
  /\ run Example.host (handleSession Example.host options 0 request)
     = minted Example.host (Some Example.secret32) Example.secure_cookie request
  /\ (exists (request' : Request.t) (args : SessionArgs),
        trace Example.host (handleSession Example.host options 0 request)
        = [EGenerate (Some Example.secret32); ENew args]
        /\ result Example.host (handleSession Example.host options 0 request)
           = Finished request'
        /\ Request.session request' = Example.Session args
        /\ arg_sessionId args = VStr "n3w"
        /\ arg_encryptedSessionId args = VStr "n3w.012345"
        /\ ~ In (arg_sessionId args) known
        /\ ~ In (arg_encryptedSessionId args) known).
Proof.
  intros request options known.
  assert (Hnew : generates_new Example.host (Some Example.secret32) known).
  { split; intros [H | [H | [H | []]]]; discriminate H. }
  destruct (C2_missing_or_forged_cookie_mints_fresh Example.host options
              Example.secret32 Example.secure_cookie "sessionId"
              eq_refl eq_refl eq_refl 0 request)
    as (_ & Hrun & _ & _ & _ & _ & request' & args & Htrace & Hresult
        & Hsession & _ & _ & _ & Hid & Hsigned & _ & _ & Hfresh).
  - evaluate.
  - right. right. exists "abc.999999". split; evaluate.
  - destruct (Hfresh known Hnew) as [Hid' Hsigned'].
    split; [evaluate|]. split; [exact Hnew|]. split; [exact Hrun|].
    exists request', args. auto 10.
Defined.

(** A store that fails with a connection error: the hook ends with that
    error right after [get]. *)
Lemma C3_backend_failure :
  let options := Example.configure (Example.failing Example.io_error) None VUndefined in
  run Example.host (handleSession Example.host options 0 Example.returning)
  = ([EGet "abc"], Failed Example.io_error).
Proof.
  intros options.
  refine (proj1 (proj2
    (C3_store_get_error_or_miss Example.host options Example.secret32
       Example.secure_cookie (Example.failing Example.io_error) "sessionId"
       eq_refl eq_refl eq_refl eq_refl 0 Example.returning
       "abc.012345" "abc" Example.io_error VUndefined _ _ _ _ _)) _ _).
  - evaluate.
  - evaluate.
  - discriminate.
  - evaluate.
  - reflexivity.
  - reflexivity.
  - vm_compute. discriminate.
Defined.

(** A record without expiry: the session is built from it and from the
    configured cookie options. *)
Lemma C9_hydration :
  let record := Example.record VUndefined in
  let options := Example.configure (Example.memory {["abc" := record]}) None VUndefined in
  let args :=
    {| arg_sessionId := VStr "abc";
       arg_encryptedSessionId := VStr "abc.012345";
       arg_cookieOpts := Example.secure_cookie;
       arg_secret := Some Example.secret32;
       arg_prevSession := Some record |} in
  run Example.host (handleSession Example.host options 2000 Example.returning)
  = ([EGet "abc"; ENew args],
     Finished (Request.set_session Example.returning (Example.Session args))).
Proof.
  intros record options args.
  refine (C9_live_record_hydrates Example.host options Example.secret32
            Example.secure_cookie (Example.memory {["abc" := record]})
            "sessionId" eq_refl eq_refl eq_refl eq_refl 2000 Example.returning
            "abc.012345" "abc" VNull record _ _ _ _ _ _ _ _).
  - evaluate.
  - evaluate.
  - discriminate.
  - evaluate.
  - evaluate.
  - reflexivity.
  - reflexivity.
  - evaluate.
Defined.

(** The cookie path is [/app] and the request goes to [/other]. *)
Lemma C8_other_path :
  let request := Example.request "/other" {["sessionId" := "abc.012345"]} in
  let options :=
    Example.configure (Example.memory ∅) (Some Example.plain_cookie) VUndefined in
  run Example.host (handleSession Example.host options 0 request)
  = ([], Finished request)
  /\ run Example.host (saveSession options request) = ([], Finished request).
Proof.
  intros request options.
  pose proof (C8_out_of_scope_is_skipped Example.host options
                Example.plain_cookie eq_refl 0 request) as H.
  destruct H as [Hin Hout]; [evaluate|].
  split; [exact Hin | apply Hout; evaluate].
Defined.

(** A session with an identity over a cookie that is not marked secure:
    [set], then the cookie. *)
Lemma C4_set_then_cookie :
  let session := Example.record VUndefined in
  let request := Example.responding session (VObj ∅) ∅ in
  let options :=
    Example.configure (Example.memory ∅) (Some Example.plain_cookie) VUndefined in
  run Example.host (saveSession options request)
  = ([ESet (VStr "abc") session;
      ESetCookie (Some "sessionId") (VStr "abc.012345")
        (cookie_object Example.plain_cookie)],
     Finished request).
Proof.
  intros session request options.
  refine (proj1
    (C4_set_before_cookie Example.host options Example.plain_cookie
       (Example.memory ∅) eq_refl eq_refl request _ _ _) _);
    evaluate.
Defined.

(** A secure cookie over a plain connection with no forwarding header:
    nothing is stored and no cookie is set. *)
Lemma C5_plain_http :
  let request := Example.responding (Example.record VUndefined) (VObj ∅) ∅ in
  let options := Example.configure (Example.memory ∅) None VUndefined in
  shouldSaveSession request (cookie options) (saveUninitialized options)
  = Some false
  /\ run Example.host (saveSession options request) = ([], Finished request).
Proof.
  intros request options.
  refine (proj2 (proj2 (proj2
    (C5_secure_cookie_gating Example.host options Example.secure_cookie
       (Example.memory ∅) eq_refl eq_refl request _ _ _) eq_refl)) _).
  - evaluate.
  - reflexivity.
  - evaluate.
  - intros [H | H]; vm_compute in H; discriminate H.
Defined.

(** [saveUninitialized: false] and a session that nobody touched. *)
Lemma C6_untouched_session :
  let request :=
    Example.responding (Example.untouched Example.plain_cookie) (VObj ∅) ∅ in
  let options :=
    Example.configure (Example.memory ∅) (Some Example.plain_cookie) (VBool false) in
  shouldSaveSession request (cookie options) (saveUninitialized options)
  = Some false
  /\ run Example.host (saveSession options request) = ([], Finished request).
Proof.
  intros request options.
  apply (C6_uninitialized_session_not_saved Example.host options request);
    evaluate.
Defined.

(** Default options, an untouched session, a request forwarded from
    https: the session is stored and the cookie set. *)
Lemma C10_untouched_session_saved :
  let session := Example.untouched Example.secure_cookie in
  let request :=
    Example.responding session (VObj ∅) {["x-forwarded-proto" := "https"]} in
  let options := ensureDefaults Example.host Example.raw in
  isSessionModified session = false
  /\ run Example.host (saveSession options request)
     = ([ESet (VStr "n3w") session;
         ESetCookie (Some "sessionId") (VStr "n3w.012345")
           (cookie_object Example.secure_cookie)],
        Finished request).
Proof.
  intros session request options. split; [evaluate|].
  pose proof (C10_default_policy_saves_untouched_sessions
                Example.host Example.raw
                {| sessionStore := store options;
                   session_decorator := VObj ∅;
                   preHandler_hook := preHandler Example.host options;
                   onSend_hook := onSend options |}
                Example.secure_cookie (Example.memory ∅) request
                eq_refl eq_refl eq_refl eq_refl) as H.
  destruct H as (_ & _ & _ & Hrun); [reflexivity | evaluate|].
  exact Hrun.
Defined.

(** ** Further properties of setup *)

Lemma option'_idempotent (v def : value) :
  option' (option' v def) def = option' v def.
Proof.
  unfold option'. destruct v; cbn; try reflexivity.
  destruct def; reflexivity.
Qed.

Lemma or_string_idempotent (name : option string) :
  or_string (Some (or_string name "sessionId")) "sessionId"
  = or_string name "sessionId".
Proof.
  destruct name as [s|]; cbn; [|reflexivity].
  destruct (String.eqb_spec s "") as [->|Hne]; cbn; [reflexivity|].
  destruct (String.eqb_spec s ""); [contradiction | reflexivity].
Qed.

(** X1: applying the defaults twice is the same as applying them once, and
    the defaults do not change what [checkOptions] answers; so setting the
    plugin up on options that already went through [ensureDefaults] gives
    the same result as on the original options. *)
Theorem X1_ensureDefaults_idempotent (host : Host) (options : Options) :
  ensureDefaults host (ensureDefaults host options) = ensureDefaults host options
  /\ checkOptions (ensureDefaults host options) = checkOptions options
  /\ session host (ensureDefaults host options) = session host options.
Proof.
  assert (Hidem : ensureDefaults host (ensureDefaults host options)
                  = ensureDefaults host options).
  { unfold ensureDefaults. cbn -[or_string option'].
    rewrite or_string_idempotent, !option'_idempotent. reflexivity. }
  assert (Hcheck : checkOptions (ensureDefaults host options)
                   = checkOptions options) by reflexivity.
  repeat split; try assumption.
  unfold session. rewrite Hcheck, Hidem. reflexivity.
Qed.

(** ** The calls the hooks make *)

(** X3: whatever the options and the request, one run of the inbound hook
    calls [store.get] at most once, calls [store.destroy] at most once and
    only right after the [get], builds at most one session, and never calls
    [store.set] or [setCookie]. *)
Theorem X3_inbound_call_pattern (host : Host) (options : Options) (now : Z)
    (request : Request.t) :
  inbound_calls (trace host (handleSession host options now request))
  /\ (forall id session,
        ~ In (ESet id session) (trace host (handleSession host options now request)))
  /\ (forall name val opts,
        ~ In (ESetCookie name val opts)
             (trace host (handleSession host options now request))).
Proof.
  assert (Hcalls : inbound_calls
                     (trace host (handleSession host options now request))).
  { unfold trace, handleSession.
    destruct (cookie options) as [cookieOpts|]; [|constructor].
    destruct (negb _); [constructor|].
    destruct (cookie_named _ _) as [c|]; [|constructor].
    destruct (String.eqb c ""); [constructor|].
    destruct (secret options) as [sec|]; [|constructor].
    destruct (unsign host c sec) as [id|]; [|constructor].
    destruct (store options) as [s|]; [|constructor].
    cbn [run after fst]. unfold getCallback, getDestroyCallback.
    destruct (truthy (fst (store_get s id))).
    - destruct (is_string _ _); constructor.
    - destruct (negb _); [constructor|].
      destruct (_ && _); [|constructor].
      cbn [run after fst].
      destruct (truthy (store_destroy s c)); constructor. }
  split; [exact Hcalls|].
  split; intros; intros Hin; inversion Hcalls as
    [Htr | ? ? Htr | ? Htr | ? ? ? Htr | ? ? Htr | ? ? Htr | ? ? ? ? Htr];
    rewrite <- Htr in Hin; cbn in Hin;
    repeat (destruct Hin as [Hin | Hin]; [discriminate Hin|]); exact Hin.
Qed.

(** X4: whatever the options and the request, one run of the outbound hook
    either makes no call at all, or calls [store.set] once with the session's
    [sessionId] (which is truthy) and the session.  In the second case, when
    the store hands a truthy error to the callback of [set], the hook makes no
    other call and ends with [done(err)] for that very error; when it hands
    none, the hook calls [setCookie] once, with the session's
    [encryptedSessionId] and [cookie], and ends with [done()].  A run that
    ends with [done()] leaves the request as it was. *)
Theorem X4_outbound_call_pattern (host : Host) (options : Options)
    (request : Request.t) :
  let session := Request.session request in
  let set := ESet (prop session "sessionId") session in
  let set_cookie :=
    ESetCookie (cookieName options) (prop session "encryptedSessionId")
      (prop session "cookie") in
  let tr := trace host (saveSession options request) in
  let out := result host (saveSession options request) in
  ((tr = [] /\ (out = Finished request \/ out = Threw))
   \/ (exists s : Store,
         store options = Some s
         /\ truthy (prop session "sessionId") = true
         /\ ((truthy (store_set s (prop session "sessionId") session) = true
              /\ tr = [set]
              /\ out = Failed (store_set s (prop session "sessionId") session))
             \/ (truthy (store_set s (prop session "sessionId") session) = false
                 /\ tr = [set; set_cookie]
                 /\ out = Finished request))))
  /\ (forall request', out = Finished request' -> request' = request).
Proof.
  intros session set set_cookie tr out.
  subst session set set_cookie tr out. unfold trace, result, saveSession.
  destruct (truthy (Request.session request)); cbn [negb orb];
    [|split; [left; auto | intros ? [= <-]; reflexivity]].
  destruct (truthy (prop (Request.session request) "sessionId")) eqn:Hid;
    cbn [negb];
    [|split; [left; auto | intros ? [= <-]; reflexivity]].
  destruct (shouldSaveSession _ _ _) as [[]|];
    [ | split; [left; auto | intros ? [= <-]; reflexivity]
      | split; [left; auto | intros ? [=]] ].
  destruct (store options) as [s|];
    [|split; [left; auto | intros ? [=]]].
  cbn [run after fst snd].
  destruct (truthy (store_set s _ _)) eqn:Herr; cbn [run after fst snd].
  - split; [right; exists s; auto 10 | intros ? [=]].
  - split; [right; exists s; auto 10 | intros ? [= <-]; reflexivity].
Qed.

(** X6: the inbound hook asks the store only for ids that
    [cookieSignature.unsign] returned for the session cookie of the request
    under the configured secret, and only for requests under the cookie
    path: an id that did not come out of a verified cookie never reaches
    [store.get]. *)
Theorem X6_store_is_asked_for_verified_ids_only (host : Host)
    (options : Options) (now : Z) (request : Request.t) (id : string) :
  In (EGet id) (trace host (handleSession host options now request)) ->
  exists (cookieOpts : CookieOpts) (sec c : string),
    cookie options = Some cookieOpts
    /\ secret options = Some sec
    /\ in_scope cookieOpts request = true
    /\ cookie_named request (cookieName options) = Some c
    /\ c <> ""
    /\ unsign host c sec = Some id.
Proof.
  unfold trace, handleSession.
  destruct (cookie options) as [cookieOpts|]; [|intros []].
  rewrite in_scope_indexOf.
  destruct (in_scope cookieOpts request) eqn:Hscope; cbn [negb]; [|intros []].
  destruct (cookie_named _ _) as [c|];
    [|cbn; intros [H | [H | []]]; discriminate H].
  destruct (String.eqb_spec c "") as [->|Hne];
    [cbn; intros [H | [H | []]]; discriminate H|].
  destruct (secret options) as [sec|]; [|intros []].
  destruct (unsign host c sec) as [id'|] eqn:Hunsign;
    [|cbn; intros [H | [H | []]]; discriminate H].
  destruct (store options) as [s|]; [|intros []].
  cbn [run after fst]. intros [[= ->] | Hin].
  - exists cookieOpts, sec, c. auto 10.
  - exfalso. revert Hin. unfold getCallback, getDestroyCallback.
    destruct (truthy (fst (store_get s id'))).
    + destruct (is_string _ _); cbn;
        [intros [H | [H | []]]; discriminate H | intros []].
    + destruct (negb _); [cbn; intros [H | [H | []]]; discriminate H|].
      destruct (_ && _); cbn [run after fst].
      * destruct (truthy (store_destroy s c)); cbn;
          [intros [H | []]; discriminate H
          | intros [H | [H | [H | []]]]; discriminate H].
      * cbn. intros [H | []]; discriminate H.
Qed.

(** ** The hooks of a plugin that was set up *)

Lemma truthy_option'_true (v : value) :
  truthy (option' v (VBool true)) = true
  <-> v = VUndefined \/ truthy v = true.
Proof.
  unfold option'. destruct v; cbn; split; auto; intros [H | H];
    (discriminate H || exact H || reflexivity).
Qed.

Lemma truthy_prop_object (v : value) (k : string) :
  truthy (prop v k) = true -> truthy v = true.
Proof. destruct v; cbn; (discriminate || reflexivity). Qed.

Lemma handleSession_does_not_throw (host : Host) (options : Options)
    (sec : string) (copts : CookieOpts) (st : Store) (now : Z)
    (request : Request.t) :
  secret options = Some sec ->
  cookie options = Some copts ->
  store options = Some st ->
  result host (handleSession host options now request) <> Threw.
Proof.
  intros Hsec Hcookie Hstore. unfold result, handleSession.
  rewrite Hsec, Hcookie, Hstore.
  destruct (negb (indexOf _ _ =? 0)); [discriminate|].
  destruct (cookie_named _ _) as [c|]; [|discriminate].
  destruct (String.eqb c ""); [discriminate|].
  destruct (unsign host c sec) as [id|]; [|discriminate].
  cbn [run after snd]. unfold getCallback, getDestroyCallback.
  destruct (truthy (fst (store_get st id))).
  - destruct (is_string _ _); discriminate.
  - destruct (negb (truthy (snd (store_get st id)))); [discriminate|].
    destruct (_ && _); cbn [run after snd]; [|discriminate].
    destruct (truthy (store_destroy st c)); discriminate.
Qed.

Lemma saveSession_does_not_throw (host : Host) (options : Options)
    (copts : CookieOpts) (st : Store) (request : Request.t) :
  cookie options = Some copts ->
  store options = Some st ->
  result host (saveSession options request) <> Threw.
Proof.
  intros Hcookie Hstore. unfold result, saveSession.
  rewrite Hcookie, Hstore.
  destruct (negb _ || negb _); [discriminate|].
  destruct (shouldSaveSession request (Some copts) (saveUninitialized options))
    as [[]|] eqn:Hdecision.
  - cbn [run after snd]. destruct (truthy (store_set st _ _)); discriminate.
  - discriminate.
  - exfalso. revert Hdecision. unfold shouldSaveSession.
    destruct (negb _ && negb _); [discriminate|].
    destruct (negb (is_true _)); [discriminate|].
    destruct (_ && _); discriminate.
Qed.

(** X5: the hooks that a successful setup registers never end in a
    [TypeError] for an option that is missing: setup has left the secret,
    the cookie options, the store and the cookie name in place. *)
Theorem X5_registered_hooks_never_throw (host : Host) (raw : Options)
    (fastify : Registered) (now : Z) (request : Request.t) :
  session host raw = next_ok fastify ->
  result host (preHandler_hook fastify now request) <> Threw
  /\ result host (onSend_hook fastify request) <> Threw.
Proof.
  intros Hsetup.
  apply session_next_ok in Hsetup as (Hcheck & -> & ->).
  apply checkOptions_spec in Hcheck as (sec & Hsec & _).
  split.
  - eapply handleSession_does_not_throw; [exact Hsec | reflexivity..].
  - eapply saveSession_does_not_throw; reflexivity.
Qed.

(** X2: after setup, the outbound hook calls [store.set] exactly when the
    request carries a session with a truthy [sessionId], the application
    left [saveUninitialized] out or passed a truthy value or the session
    does not have exactly four keys, and the transport test passes. *)
Theorem X2_outbound_hook_writes_iff (host : Host) (raw : Options)
    (fastify : Registered) (copts : CookieOpts) (request : Request.t) :
  session host raw = next_ok fastify ->
  cookie (ensureDefaults host raw) = Some copts ->
  let session := Request.session request in
  In (ESet (prop session "sessionId") session)
     (trace host (onSend_hook fastify request))
  <-> truthy session = true
      /\ truthy (prop session "sessionId") = true
      /\ (saveUninitialized raw = VUndefined
          \/ truthy (saveUninitialized raw) = true
          \/ keys_length session <> 4%nat)
      /\ transport_allows copts request = true.
Proof.
  intros Hsetup Hcookie session. subst session.
  apply session_next_ok in Hsetup as (_ & _ & ->).
  unfold trace, saveSession. rewrite Hcookie.
  pose proof (truthy_option'_true (saveUninitialized raw)) as Hpolicy.
  change (option' (saveUninitialized raw) (VBool true))
    with (saveUninitialized (ensureDefaults host raw)) in Hpolicy.
  destruct (truthy (Request.session request)); cbn [negb orb];
    [|split; [intros [] | intros (H & _); discriminate H]].
  destruct (truthy (prop (Request.session request) "sessionId"));
    cbn [negb];
    [|split; [intros [] | intros (_ & H & _); discriminate H]].
  destruct (negb (truthy (saveUninitialized (ensureDefaults host raw)))
            && negb (isSessionModified (Request.session request))) eqn:Hcheck.
  - assert (Hdecision : shouldSaveSession request (Some copts)
                          (saveUninitialized (ensureDefaults host raw))
                        = Some false).
    { unfold shouldSaveSession. rewrite Hcheck. reflexivity. }
    rewrite Hdecision. split; [intros []|].
    intros (_ & _ & Hwhy & _). exfalso.
    apply andb_true_iff in Hcheck as [Hsu Hmod].
    apply negb_true_iff in Hsu, Hmod. unfold isSessionModified in Hmod.
    apply negb_false_iff, Nat.eqb_eq in Hmod.
    destruct Hwhy as [H | [H | H]].
    + assert (truthy (saveUninitialized (ensureDefaults host raw)) = true)
        by (apply Hpolicy; auto). congruence.
    + assert (truthy (saveUninitialized (ensureDefaults host raw)) = true)
        by (apply Hpolicy; auto). congruence.
    + contradiction.
  - rewrite (shouldSaveSession_transport _ _ _ Hcheck).
    apply andb_false_iff in Hcheck.
    assert (Hwhy : saveUninitialized raw = VUndefined
                   \/ truthy (saveUninitialized raw) = true
                   \/ keys_length (Request.session request) <> 4%nat).
    { destruct Hcheck as [Hsu | Hmod].
      - apply negb_false_iff, Hpolicy in Hsu. tauto.
      - apply negb_false_iff in Hmod. unfold isSessionModified in Hmod.
        apply negb_true_iff, Nat.eqb_neq in Hmod. tauto. }
    destruct (transport_allows copts request).
    + cbn [store ensureDefaults run after fst].
      split; [auto | intros _; left; reflexivity].
    + split; [intros [] | intros (_ & _ & _ & H); discriminate H].
Qed.

(** X9: when the application does not say whether the cookie is secure,
    setup marks it secure; the outbound hook then stores nothing and sets no
    cookie on a request whose connection is not encrypted and that carries no
    [x-forwarded-proto: https] header, whatever the session. *)
Theorem X9_default_cookie_is_secure_only (host : Host) (raw : Options)
    (fastify : Registered) (request : Request.t) :
  session host raw = next_ok fastify ->
  (cookie raw = None
   \/ exists c, cookie raw = Some c /\ secure c = VUndefined) ->
  prop (connection (Request.req request)) "encrypted" <> VBool true ->
  Request.headers request !! "x-forwarded-proto" <> Some "https" ->
  (exists copts, cookie (ensureDefaults host raw) = Some copts
                 /\ secure copts = VBool true)
  /\ run host (onSend_hook fastify request) = ([], Finished request).
Proof.
  intros Hsetup Hraw Hencrypted Hhttps.
  apply session_next_ok in Hsetup as (_ & _ & ->).
  assert (Hsecure : exists copts,
             cookie (ensureDefaults host raw) = Some copts
             /\ secure copts = VBool true).
  { unfold ensureDefaults.
    destruct Hraw as [-> | (c & -> & Hc)]; cbn [cookie default from_option id];
      eexists; (split; [reflexivity|]); cbn [secure]; rewrite ?Hc;
      reflexivity. }
  split; [exact Hsecure|].
  destruct Hsecure as (copts & Hcookie & Hsecure).
  unfold saveSession. rewrite Hcookie.
  destruct (negb _ || negb _); [reflexivity|].
  assert (Hdecision : shouldSaveSession request (Some copts)
                        (saveUninitialized (ensureDefaults host raw))
                      = Some false).
  { unfold shouldSaveSession. destruct (negb _ && negb _); [reflexivity|].
    rewrite Hsecure, encrypted_truthy. cbn [is_true negb].
    pose proof (is_true_spec (prop (connection (Request.req request)) "encrypted"))
      as Hspec.
    destruct (is_true (prop _ "encrypted")); [destruct Hencrypted; tauto|].
    rewrite bool_decide_eq_false_2 by exact Hhttps. reflexivity. }
  rewrite Hdecision. reflexivity.
Qed.

(** ** What the session check counts *)

(** X8: [isSessionModified] only counts keys.  On a session object with
    exactly four keys, assigning to a property is seen as a modification if
    and only if the property is new, and deleting a property if and only if
    it was there; so with a falsy [saveUninitialized] a session whose
    existing properties were overwritten is still not saved. *)
Theorem X8_only_the_number_of_keys_counts (props : gmap string value)
    (k : string) (v : value) :
  size props = 4%nat ->
  (isSessionModified (VObj (<[k := v]> props)) = true <-> props !! k = None)
  /\ (isSessionModified (VObj (delete k props)) = true <-> is_Some (props !! k))
  /\ (forall (request : Request.t) (cookieOpts : option CookieOpts)
             (saveUninitialized : value),
        Request.session request = VObj (<[k := v]> props) ->
        is_Some (props !! k) ->
        truthy saveUninitialized = false ->
        shouldSaveSession request cookieOpts saveUninitialized = Some false).
Proof.
  intros Hsize. unfold isSessionModified, keys_length.
  split; [|split].
  - rewrite map_size_insert, Hsize.
    destruct (props !! k); cbn; split; (discriminate || reflexivity).
  - destruct (props !! k) as [x|] eqn:Hk.
    + rewrite map_size_delete_Some, Hsize by eauto. cbn. split; eauto.
    + rewrite map_size_delete_None, Hsize by assumption. cbn.
      split; [discriminate | intros [x Hx]; discriminate Hx].
  - intros request cookieOpts su Hsession Hsome Hpolicy.
    unfold shouldSaveSession, isSessionModified, keys_length.
    rewrite Hpolicy, Hsession, map_size_insert_Some, Hsize by assumption.
    reflexivity.
Qed.

(** ** The cookie path *)

Lemma prefix_app (p u w : string) :
  String.prefix p u = true -> String.prefix p (u ++ w) = true.
Proof.
  revert u. induction p as [|a p IH]; intros u H.
  - destruct (u ++ w); reflexivity.
  - destruct u as [|b u]; simpl in *; [discriminate H|].
    destruct (Ascii.ascii_dec a b); [apply IH; exact H | discriminate H].
Qed.

(** X10: the cookie path is matched as a plain prefix of the URL: when the
    inbound hook does not skip a request, it does not skip any request whose
    URL extends that one (a sub-path, a query string, or simply a longer
    name). *)
Theorem X10_scope_extends_with_the_url (host : Host) (options : Options)
    (now : Z) (request request' : Request.t) (w : string) :
  url (Request.req request') = url (Request.req request) ++ w ->
  handleSession host options now request <> Done request ->
  handleSession host options now request' <> Done request'.
Proof.
  intros Hurl Hkept. revert Hkept. unfold handleSession.
  destruct (cookie options) as [cookieOpts|]; [|discriminate].
  rewrite !in_scope_indexOf. unfold in_scope. rewrite Hurl.
  destruct (String.prefix _ (url (Request.req request))) eqn:Hprefix;
    cbn [negb]; [|intros H; destruct H; reflexivity].
  intros _. rewrite (prefix_app _ _ w Hprefix). cbn [negb].
  destruct (cookie_named request' _) as [c|]; [|discriminate].
  destruct (String.eqb c ""); [discriminate|].
  destruct (secret options) as [sec|]; [|discriminate].
  destruct (unsign host c sec); [|discriminate].
  destruct (store options); discriminate.
Qed.

(** ** From the inbound hook to the outbound hook *)

Section Lifecycle.

Context (host : Host) (options : Options).
Context (sec : string) (copts : CookieOpts) (st : Store) (cname : string).

Hypothesis has_secret : secret options = Some sec.
Hypothesis has_cookie : cookie options = Some copts.
Hypothesis has_store : store options = Some st.
Hypothesis has_name : cookieName options = Some cname.

(** X7: for a request under the cookie path the inbound hook has two ways
    to end: with [done(err)], or with [done()] after it has replaced the
    session of the request by a session it has just constructed; nothing
    else of the request is changed. *)
Theorem X7_in_scope_request_gets_session_or_error (now : Z)
    (request : Request.t) :
  in_scope copts request = true ->
  (exists err, result host (handleSession host options now request) = Failed err)
  \/ (exists args,
        In (ENew args) (trace host (handleSession host options now request))
        /\ result host (handleSession host options now request)
           = Finished (Request.set_session request (Session host args))).
Proof.
  intros Hscope. unfold result, trace, handleSession.
  rewrite has_secret, has_cookie, has_store, in_scope_indexOf, Hscope.
  cbn [negb].
  destruct (cookie_named _ _) as [c|];
    [|right; eexists; split; [right; left; reflexivity | reflexivity]].
  destruct (String.eqb c "");
    [right; eexists; split; [right; left; reflexivity | reflexivity]|].
  destruct (unsign host c sec) as [id|];
    [|right; eexists; split; [right; left; reflexivity | reflexivity]].
  cbn [run after fst snd]. unfold getCallback, getDestroyCallback.
  destruct (truthy (fst (store_get st id))).
  - destruct (is_string _ _); [|left; eexists; reflexivity].
    right; eexists; split; [right; right; left; reflexivity | reflexivity].
  - destruct (negb (truthy (snd (store_get st id))));
      [right; eexists; split; [right; right; left; reflexivity | reflexivity]|].
    destruct (_ && _); cbn [run after fst snd].
    + destruct (truthy (store_destroy st c)); [left; eexists; reflexivity|].
      right; eexists; split;
        [right; right; right; left; reflexivity | reflexivity].
    + right; eexists; split; [right; left; reflexivity | reflexivity].
Qed.

(** X12: for a request under the cookie path whose cookie verifies and whose
    record is found and expired, the hook calls [store.destroy] with the
    cookie value; any truthy error of [destroy], whatever its code, ends the
    hook with [done(err)] and no session, and otherwise a new session is
    minted; the expired record is never used to build a session. *)
Theorem X12_expired_record_is_destroyed_then_replaced (now : Z)
    (request : Request.t) (c id : string) (err record : value) :
  in_scope copts request = true ->
  Request.cookies request !! cname = Some c ->
  c <> "" ->
  unsign host c sec = Some id ->
  store_get st id = (err, record) ->
  truthy err = false ->
  truthy record = true ->
  expired host record now = true ->
  (truthy (store_destroy st c) = true ->
   run host (handleSession host options now request)
   = ([EGet id; EDestroy c], Failed (store_destroy st c)))
  /\ (truthy (store_destroy st c) = false ->
      run host (handleSession host options now request)
      = ([EGet id; EDestroy c; EGenerate (Some sec);
          ENew (fresh host (Some sec) copts)],
         Finished (Request.set_session request
                     (Session host (fresh host (Some sec) copts))))).
Proof.
  intros Hscope Hcookie Hne Hunsign Hget Herr Hrecord Hexpired.
  rewrite (run_expired host options sec copts st cname has_secret has_cookie
             has_store has_name now request c id err record) by assumption.
  split; intros ->; reflexivity.
Qed.

(** X11: for a request under the cookie path without a cookie, when the
    constructed session exposes the generated pair as its [sessionId] and
    [encryptedSessionId], the generated id is truthy, [saveUninitialized] is
    truthy and the transport test passes, the outbound hook run on the
    request as the inbound hook left it stores the session under the
    generated id and then sets the cookie to the generated signed id. *)
Theorem X11_new_session_is_stored_under_its_generated_id (now : Z)
    (request : Request.t) :
  let ids := generateSessionIds host (Some sec) in
  let session := Session host (fresh host (Some sec) copts) in
  let request' := Request.set_session request session in
  in_scope copts request = true ->
  (Request.cookies request !! cname = None
   \/ Request.cookies request !! cname = Some "") ->
  prop session "sessionId" = sessionId ids ->
  prop session "encryptedSessionId" = encryptedSessionId ids ->
  truthy (sessionId ids) = true ->
  truthy (saveUninitialized options) = true ->
  transport_allows copts request = true ->
  result host (handleSession host options now request) = Finished request'
  /\ run host (saveSession options request')
     = if truthy (store_set st (sessionId ids) session)
       then ([ESet (sessionId ids) session],
             Failed (store_set st (sessionId ids) session))
       else ([ESet (sessionId ids) session;
              ESetCookie (Some cname) (encryptedSessionId ids)
                (prop session "cookie")],
             Finished request').
Proof.
  intros ids session request' Hscope Hcookie Hid Hsigned Htruthy Hpolicy
    Htransport.
  split.
  - unfold result.
    rewrite (handleSession_no_cookie host options sec copts cname has_secret
               has_cookie has_name now request Hscope Hcookie).
    reflexivity.
  - assert (Hsession : truthy session = true).
    { apply (truthy_prop_object session "sessionId"). rewrite Hid. exact Htruthy. }
    rewrite (run_saveSession host options copts st has_cookie has_store
               request' true).
    + unfold saved. cbn [Request.session request' Request.set_session].
      rewrite Hid, Hsigned, has_name. reflexivity.
    + exact Hsession.
    + cbn [Request.session request' Request.set_session]. rewrite Hid.
      exact Htruthy.
    + rewrite shouldSaveSession_transport.
      * f_equal. exact Htransport.
      * rewrite Hpolicy. reflexivity.
Qed.

End Lifecycle.

(** ** What the hooks read of a request *)

(** X13: the inbound hook reads nothing of a request but its URL, its
    session cookie and (to leave it in place when the request is skipped)
    its session: two requests that agree on these get the same calls and end
    the same way, whatever their headers, connection and other cookies. *)
Theorem X13_inbound_reads_url_and_session_cookie (host : Host)
    (options : Options) (now : Z) (request1 request2 : Request.t) :
  url (Request.req request1) = url (Request.req request2) ->
  cookie_named request1 (cookieName options)
  = cookie_named request2 (cookieName options) ->
  Request.session request1 = Request.session request2 ->
  trace host (handleSession host options now request1)
  = trace host (handleSession host options now request2)
  /\ same_outcome (result host (handleSession host options now request1))
                  (result host (handleSession host options now request2)).
Proof.
  intros Hurl Hcookie Hsession. unfold trace, result, handleSession.
  rewrite Hurl, Hcookie.
  destruct (cookie options) as [cookieOpts|]; [|split; reflexivity].
  destruct (negb (indexOf _ _ =? 0)); [split; [reflexivity | exact Hsession]|].
  destruct (cookie_named request2 _) as [c|]; [|split; reflexivity].
  destruct (String.eqb c ""); [split; reflexivity|].
  destruct (secret options) as [sec|]; [|split; reflexivity].
  destruct (unsign host c sec) as [id|]; [|split; reflexivity].
  destruct (store options) as [s|]; [|split; reflexivity].
  cbn [run after fst snd]. unfold getCallback, getDestroyCallback.
  destruct (truthy (fst (store_get s id))).
  - destruct (is_string _ _); split; reflexivity.
  - destruct (negb (truthy (snd (store_get s id)))); [split; reflexivity|].
    destruct (_ && _); cbn [run after fst snd]; [|split; reflexivity].
    destruct (truthy (store_destroy s c)); split; reflexivity.
Qed.

(** X14: the outbound hook reads nothing of a request but its session, its
    connection and its [x-forwarded-proto] header: it looks neither at the
    URL nor at the cookies, so a session with a [sessionId] is saved on a
    request outside the cookie path just as on one inside. *)
Theorem X14_outbound_ignores_url_and_cookies (host : Host) (options : Options)
    (request1 request2 : Request.t) :
  Request.session request1 = Request.session request2 ->
  connection (Request.req request1) = connection (Request.req request2) ->
  Request.headers request1 !! "x-forwarded-proto"
  = Request.headers request2 !! "x-forwarded-proto" ->
  trace host (saveSession options request1)
  = trace host (saveSession options request2)
  /\ same_outcome (result host (saveSession options request1))
                  (result host (saveSession options request2)).
Proof.
  intros Hsession Hconnection Hproto. unfold trace, result, saveSession.
  assert (Hdecision :
            shouldSaveSession request1 (cookie options) (saveUninitialized options)
            = shouldSaveSession request2 (cookie options)
                (saveUninitialized options)).
  { unfold shouldSaveSession. rewrite Hsession, Hconnection, Hproto.
    reflexivity. }
  rewrite Hdecision, Hsession.
  destruct (negb _ || negb _); [split; [reflexivity | exact Hsession]|].
  destruct (shouldSaveSession request2 _ _) as [[]|];
    [ | split; [reflexivity | exact Hsession] | split; reflexivity ].
  destruct (store options) as [s|]; [|split; reflexivity].
  cbn [run after fst snd].
  destruct (truthy (store_set s _ _)); cbn [run after fst snd];
    split; (reflexivity || exact Hsession).
Qed.

(** ** The further properties at work *)

(** Default options, an untouched session, a request forwarded from
    https: [set] is called. *)
Lemma X2_forwarded_https :
  let session := Example.untouched Example.secure_cookie in
  let request :=
    Example.responding session (VObj ∅) {["x-forwarded-proto" := "https"]} in
  let options := ensureDefaults Example.host Example.raw in
  In (ESet (VStr "n3w") session)
     (trace Example.host (saveSession options request)).
Proof.
  intros session request options.
  apply (X2_outbound_hook_writes_iff Example.host Example.raw
           {| sessionStore := store options;
              session_decorator := VObj ∅;
              preHandler_hook := preHandler Example.host options;
              onSend_hook := onSend options |}
           Example.secure_cookie request eq_refl eq_refl).
  repeat split; try evaluate. left. reflexivity.
Defined.

Lemma X5_default_setup :
  let options := ensureDefaults Example.host Example.raw in
  result Example.host (handleSession Example.host options 0 Example.returning)
  <> Threw
  /\ result Example.host (saveSession options Example.returning) <> Threw.
Proof.
  intros options.
  exact (X5_registered_hooks_never_throw Example.host Example.raw
           {| sessionStore := store options;
              session_decorator := VObj ∅;
              preHandler_hook := preHandler Example.host options;
              onSend_hook := onSend options |}
           0 Example.returning eq_refl).
Defined.

(** The id ["abc"] reaches the store because the cookie ["abc.012345"]
    verifies. *)
Lemma X6_verified_cookie :
  let options := Example.configure (Example.memory ∅) None VUndefined in
  exists (cookieOpts : CookieOpts) (sec c : string),
    cookie options = Some cookieOpts
    /\ secret options = Some sec
    /\ in_scope cookieOpts Example.returning = true
    /\ cookie_named Example.returning (cookieName options) = Some c
    /\ c <> ""
    /\ Example.unsign c sec = Some "abc".
Proof.
  intros options.
  apply (X6_store_is_asked_for_verified_ids_only Example.host options 0
           Example.returning "abc").
  left. reflexivity.
Defined.

Lemma X7_forged_cookie_gets_session :
  let request := Example.request "/" {["sessionId" := "abc.999999"]} in
  let options := Example.configure (Example.memory ∅) None VUndefined in
  (exists err,
      result Example.host (handleSession Example.host options 0 request)
      = Failed err)
  \/ (exists args,
        In (ENew args)
           (trace Example.host (handleSession Example.host options 0 request))
        /\ result Example.host (handleSession Example.host options 0 request)
           = Finished (Request.set_session request (Example.Session args))).
Proof.
  intros request options.
  apply (X7_in_scope_request_gets_session_or_error Example.host options
           Example.secret32 Example.secure_cookie (Example.memory ∅)
           eq_refl eq_refl eq_refl 0 request).
  evaluate.
Defined.

(** Adding [user] to an untouched session is seen; overwriting its
    [cookie] is not. *)
Lemma X8_add_and_overwrite :
  let props : gmap string value :=
    <["sessionId" := VStr "n3w"]>
      (<["encryptedSessionId" := VStr "n3w.012345"]>
         (<["cookie" := VNull]> (<["expires" := VNull]> ∅))) in
  isSessionModified (VObj (<["user" := VStr "ann"]> props)) = true
  /\ isSessionModified (VObj (<["cookie" := VStr "changed"]> props)) <> true.
Proof.
  intros props.
  assert (Hsize : size props = 4%nat) by evaluate.
  split.
  - apply (proj1 (X8_only_the_number_of_keys_counts props "user" (VStr "ann")
                    Hsize)).
    evaluate.
  - intros H.
    apply (proj1 (X8_only_the_number_of_keys_counts props "cookie"
                    (VStr "changed") Hsize)) in H.
    vm_compute in H. discriminate H.
Defined.

Lemma X9_plain_http :
  let request := Example.responding (Example.record VUndefined) (VObj ∅) ∅ in
  let options := ensureDefaults Example.host Example.raw in
  run Example.host (saveSession options request) = ([], Finished request).
Proof.
  intros request options.
  refine (proj2 (X9_default_cookie_is_secure_only Example.host Example.raw
           {| sessionStore := store options;
              session_decorator := VObj ∅;
              preHandler_hook := preHandler Example.host options;
              onSend_hook := onSend options |}
           request eq_refl (or_introl eq_refl) _ _)).
  - vm_compute. discriminate.
  - vm_compute. discriminate.
Defined.

(** The cookie path [/app] also covers [/application]. *)
Lemma X10_longer_name :
  let options :=
    Example.configure (Example.memory ∅) (Some Example.plain_cookie) VUndefined in
  let request := Example.request "/application" ∅ in
  handleSession Example.host options 0 request <> Done request.
Proof.
  intros options request.
  apply (X10_scope_extends_with_the_url Example.host options 0
           (Example.request "/app" ∅) request "lication" eq_refl).
  vm_compute. discriminate.
Defined.

(** A first visit over a cookie that is not marked secure: the new
    session is stored under ["n3w"] and the cookie carries its signed form. *)
Lemma X11_first_visit :
  let options :=
    Example.configure (Example.memory ∅) (Some Example.plain_cookie) VUndefined in
  let request := Example.request "/app" ∅ in
  let session := Example.untouched Example.plain_cookie in
  let request' := Request.set_session request session in
  result Example.host (handleSession Example.host options 0 request)
  = Finished request'
  /\ run Example.host (saveSession options request')
     = ([ESet (VStr "n3w") session;
         ESetCookie (Some "sessionId") (VStr "n3w.012345")
           (cookie_object Example.plain_cookie)],
        Finished request').
Proof.
  intros options request session request'.
  refine (X11_new_session_is_stored_under_its_generated_id Example.host options
            Example.secret32 Example.plain_cookie (Example.memory ∅) "sessionId"
            eq_refl eq_refl eq_refl eq_refl 0 request _ _ _ _ _ _ _);
    try evaluate.
  left. reflexivity.
Defined.

(** The expired record of ["abc"] in a store whose [destroy] succeeds. *)
Lemma X12_expired_then_minted :
  let store := Example.memory {["abc" := Example.record (VNum 1000)]} in
  let options := Example.configure store None VUndefined in
  run Example.host (handleSession Example.host options 2000 Example.returning)
  = ([EGet "abc"; EDestroy "abc.012345"; EGenerate (Some Example.secret32);
      ENew (fresh Example.host (Some Example.secret32) Example.secure_cookie)],
     Finished (Request.set_session Example.returning
                 (Example.untouched Example.secure_cookie))).
Proof.
  intros store options.
  refine (proj2
    (X12_expired_record_is_destroyed_then_replaced Example.host options
       Example.secret32 Example.secure_cookie store "sessionId"
       eq_refl eq_refl eq_refl eq_refl 2000 Example.returning
       "abc.012345" "abc" VNull (Example.record (VNum 1000))
       _ _ _ _ _ _ _ _) _); try evaluate.
  discriminate.
Defined.

(** The same cookie with and without other headers and cookies. *)
Lemma X13_other_headers_and_cookies :
  let options := Example.configure (Example.memory ∅) None VUndefined in
  let request2 : Request.t :=
    {| Request.req := {| url := "/"; connection := VNull |};
       Request.cookies := {["sessionId" := "abc.012345"; "theme" := "dark"]};
       Request.headers := {["x-forwarded-proto" := "https"]};
       Request.session := VObj ∅ |} in
  trace Example.host (handleSession Example.host options 0 Example.returning)
  = trace Example.host (handleSession Example.host options 0 request2)
  /\ same_outcome
       (result Example.host (handleSession Example.host options 0 Example.returning))
       (result Example.host (handleSession Example.host options 0 request2)).
Proof.
  intros options request2.
  apply (X13_inbound_reads_url_and_session_cookie Example.host options 0
           Example.returning request2); evaluate.
Defined.

(** The same session on a request inside and on one outside the cookie
    path [/app]. *)
Lemma X14_outside_the_cookie_path :
  let options :=
    Example.configure (Example.memory ∅) (Some Example.plain_cookie) VUndefined in
  let inside : Request.t :=
    {| Request.req := {| url := "/app"; connection := VObj ∅ |};
       Request.cookies := ∅; Request.headers := ∅;
       Request.session := Example.record VUndefined |} in
  let outside : Request.t :=
    {| Request.req := {| url := "/other"; connection := VObj ∅ |};
       Request.cookies := {["sessionId" := "abc.012345"]}; Request.headers := ∅;
       Request.session := Example.record VUndefined |} in
  trace Example.host (saveSession options inside)
  = trace Example.host (saveSession options outside)
  /\ same_outcome (result Example.host (saveSession options inside))
                  (result Example.host (saveSession options outside)).
Proof.
  intros options inside outside.
  apply (X14_outbound_ignores_url_and_cookies Example.host options inside
           outside); reflexivity.
Defined.
